(** * Real-estate cluster dashboard: filter, aggregation and ingestion

    A shallow embedding of the data pipeline of the dashboard:

    - [src/app/page.tsx]: the map page ([parseCSV] with its [transform],
      [applyFilters], [getClusterColor], [resetFilters]);
    - [src/app/cluster-analysis/page.tsx]: the analysis page ([clusterCounts],
      the five mean bar series, [scatterPriceLand], [validProperties]);
    - [components/SimpleMapComponent]: one marker per property.

    JavaScript numbers are IEEE 754 binary64 values, so they are modelled by
    Rocq's primitive [float]; strings are modelled by [string] (one byte per
    code unit). *)

From Stdlib Require Import List String Ascii ZArith Bool Lia Arith.
From Stdlib Require Import Floats.
From Stdlib Require Import Permutation.
Import ListNotations.

Local Open Scope string_scope.
Local Open Scope list_scope.

(** ** JavaScript numbers *)

Module Js.

(** [Number.isNaN] / global [isNaN] on a number. *)
Definition isNaN (x : float) : bool := PrimFloat.is_nan x.

(** ToBoolean on a number: [+0], [-0] and [NaN] are falsy. *)
Definition truthy (x : float) : bool :=
  negb (PrimFloat.is_zero x || PrimFloat.is_nan x).

(** [x || y] on numbers. *)
Definition or_else (x y : float) : float := if truthy x then x else y.

(** [x === y] on numbers (IEEE equality: NaN differs from itself, the two
    zeros are equal). *)
Definition strictEqNum (x y : float) : bool := PrimFloat.eqb x y.

(** [x >= y] and [x <= y] on numbers; both are false when a side is NaN. *)
Definition ge (x y : float) : bool := PrimFloat.leb y x.
Definition le (x y : float) : bool := PrimFloat.leb x y.

(** The number nearest to an integer (round to nearest, ties to even). *)
Definition ofZ (z : Z) : float :=
  SF2Prim (binary_normalize prec emax z 0 false).

(** The number nearest to [m * 10 ^ e], for [m >= 0]; [neg] is the sign. A
    negative exponent is a division of two integers, rounded once. *)
Definition ofDecimal (neg : bool) (m e : Z) : float :=
  match m with
  | Zpos p =>
      match e with
      | Zneg k =>
          SF2Prim (SFdiv prec emax (S754_finite neg p 0)
                         (S754_finite false (Pos.pow 10 k) 0))
      | _ => SF2Prim (binary_normalize prec emax
                        (cond_Zopp neg (Zpos p * 10 ^ e)) 0 false)
      end
  | _ => if neg then PrimFloat.neg_zero else PrimFloat.zero
  end.

(** *** Scanning numeric text *)

(** StrWhiteSpaceChar. A character of the text is one code unit below 256,
    and the white space and line terminators among these are TAB, LF, VT,
    FF, CR, SP and the no-break space U+00A0; the others (U+1680, U+2000 to
    U+200A, U+2028, U+2029, U+202F, U+205F, U+3000 and U+FEFF) are code
    units that a [string] cannot hold. The same set is the [\s] of a
    pattern. *)
Definition isWhiteSpace (c : ascii) : bool :=
  let n := nat_of_ascii c in
  ((9 <=? n) && (n <=? 13) || (n =? 32) || (n =? 160))%nat.

Fixpoint trimStart (s : string) : string :=
  match s with
  | String c r => if isWhiteSpace c then trimStart r else s
  | EmptyString => s
  end.

Definition digitOf (c : ascii) : option Z :=
  let n := nat_of_ascii c in
  if ((48 <=? n) && (n <=? 57))%nat then Some (Z.of_nat (n - 48)) else None.

Definition hexDigitOf (c : ascii) : option Z :=
  let n := nat_of_ascii c in
  if ((48 <=? n) && (n <=? 57))%nat then Some (Z.of_nat (n - 48))
  else if ((97 <=? n) && (n <=? 102))%nat then Some (Z.of_nat (n - 87))
  else if ((65 <=? n) && (n <=? 70))%nat then Some (Z.of_nat (n - 55))
  else None.

(** The longest run of digits at the head of [s], read in base [radix] on
    top of [acc]: its value, its length and the rest of the text. *)
Fixpoint scanDigits (digit : ascii -> option Z) (radix : Z)
    (s : string) (acc : Z) (len : nat) : Z * nat * string :=
  match s with
  | String c r =>
      match digit c with
      | Some d => scanDigits digit radix r (radix * acc + d)%Z (S len)
      | None => (acc, len, s)
      end
  | EmptyString => (acc, len, s)
  end.

(** A leading sign: whether it is a minus, and the rest. [plusToo] is false
    where the grammar allows a minus only. *)
Definition scanSign (plusToo : bool) (s : string) : bool * string :=
  match s with
  | String "-" r => (true, r)
  | String "+" r => if plusToo then (false, r) else (false, s)
  | _ => (false, s)
  end.

(** ExponentPart: [e] or [E], an optional sign and at least one digit;
    otherwise no exponent is read. *)
Definition scanExponent (s : string) : Z * string :=
  match s with
  | String c r =>
      if (Ascii.eqb c "e" || Ascii.eqb c "E")%bool then
        let '(neg, r1) := scanSign true r in
        let '(v, n, r2) := scanDigits digitOf 10 r1 0%Z 0 in
        match n with
        | O => (0%Z, s)
        | _ => (cond_Zopp neg v, r2)
        end
      else (0%Z, s)
  | EmptyString => (0%Z, s)
  end.

(** The value of a scanned literal. *)
Inductive literal :=
| LInfinity
| LDecimal (m e : Z).

Definition literalValue (neg : bool) (l : literal) : float :=
  match l with
  | LInfinity => if neg then PrimFloat.neg_infinity else PrimFloat.infinity
  | LDecimal m e => ofDecimal neg m e
  end.

(** The longest prefix made of digits with an optional fraction, or of a
    fraction alone, followed by an optional exponent. *)
Definition scanMantissaExponent (s : string) : option (literal * string) :=
  let '(ip, ni, r1) := scanDigits digitOf 10 s 0%Z 0 in
  let '(m, nf, r2) :=
    match r1 with
    | String "." r =>
        let '(m, nf, r2) := scanDigits digitOf 10 r ip 0 in
        match ni, nf with
        | O, O => (ip, 0, r1)
        | _, _ => (m, nf, r2)
        end
    | _ => (ip, 0, r1)
    end in
  match ni, nf with
  | O, O => None
  | _, _ =>
      let '(ex, r3) := scanExponent r2 in
      Some (LDecimal m (ex - Z.of_nat nf), r3)
  end.

(** The longest prefix that is a StrUnsignedDecimalLiteral: [Infinity] or
    the above. *)
Definition scanUnsignedDecimal (s : string) : option (literal * string) :=
  if String.prefix "Infinity" s
  then Some (LInfinity, String.substring 8 (String.length s - 8) s)
  else scanMantissaExponent s.

(** [Number.parseFloat(s)]: leading white space is skipped, the longest
    decimal literal is read and what follows it is ignored; NaN when no
    literal starts the text. *)
Definition parseFloat (s : string) : float :=
  let '(neg, r) := scanSign true (trimStart s) in
  match scanUnsignedDecimal r with
  | Some (l, _) => literalValue neg l
  | None => PrimFloat.nan
  end.

(** [Number.parseInt(s)] with no radix: leading white space is skipped, a
    sign is read, [0x]/[0X] selects base 16 (base 10 otherwise), and the
    longest run of digits is read; NaN when there is none. *)
Definition parseInt (s : string) : float :=
  let '(neg, r) := scanSign true (trimStart s) in
  let '(digit, radix, r1) :=
    match r with
    | String "0" (String x r') =>
        if (Ascii.eqb x "x" || Ascii.eqb x "X")%bool
        then (hexDigitOf, 16%Z, r') else (digitOf, 10%Z, r)
    | _ => (digitOf, 10%Z, r)
    end in
  let '(v, n, _) := scanDigits digit radix r1 0%Z 0 in
  match n with
  | O => PrimFloat.nan
  | _ => ofDecimal neg v 0
  end.

Fixpoint trimEnd (s : string) : string :=
  match s with
  | String c r =>
      match trimEnd r with
      | EmptyString => if isWhiteSpace c then EmptyString else String c EmptyString
      | r' => String c r'
      end
  | EmptyString => EmptyString
  end.

Definition binDigitOf (c : ascii) : option Z :=
  match digitOf c with
  | Some d => if (d <? 2)%Z then Some d else None
  | None => None
  end.

Definition octDigitOf (c : ascii) : option Z :=
  match digitOf c with
  | Some d => if (d <? 8)%Z then Some d else None
  | None => None
  end.

(** A text that is a run of digits in base [radix] and nothing else. *)
Definition wholeInteger (digit : ascii -> option Z) (radix : Z) (s : string)
  : float :=
  match scanDigits digit radix s 0%Z 0 with
  | (v, S _, EmptyString) => ofDecimal false v 0
  | _ => PrimFloat.nan
  end.

(** [Number(s)] on a string (StringToNumber): white space is trimmed at
    both ends; the empty text is [+0]; otherwise the whole text has to be a
    signed decimal literal or an unsigned [0x], [0o] or [0b] integer, and
    anything else is NaN. *)
Definition stringToNumber (s : string) : float :=
  match trimEnd (trimStart s) with
  | EmptyString => PrimFloat.zero
  | String "0" (String "x" r) | String "0" (String "X" r) =>
      wholeInteger hexDigitOf 16 r
  | String "0" (String "o" r) | String "0" (String "O" r) =>
      wholeInteger octDigitOf 8 r
  | String "0" (String "b" r) | String "0" (String "B" r) =>
      wholeInteger binDigitOf 2 r
  | t =>
      let '(neg, r) := scanSign true t in
      match scanUnsignedDecimal r with
      | Some (l, EmptyString) => literalValue neg l
      | _ => PrimFloat.nan
      end
  end.

(** *** Values and objects *)

(** The values a parsed CSV cell can hold. A [Date] object is kept by its
    time value, which is what [Number] reads from it. *)
Inductive value :=
| VUndefined
| VNull
| VBool (b : bool)
| VNum (x : float)
| VStr (s : string)
| VDate (t : float).

(** [Number(v)]. *)
Definition toNumber (v : value) : float :=
  match v with
  | VUndefined => PrimFloat.nan
  | VNull => PrimFloat.zero
  | VBool true => PrimFloat.one
  | VBool false => PrimFloat.zero
  | VNum x => x
  | VStr s => stringToNumber s
  | VDate t => t
  end.

(** [v === c] for a number [c]: no conversion, so only a number can be
    equal to [c]. *)
Definition strictEq (v : value) (c : float) : bool :=
  match v with
  | VNum x => strictEqNum x c
  | _ => false
  end.

(** [typeof v === "number"]. *)
Definition isNumber (v : value) : bool :=
  match v with
  | VNum _ => true
  | _ => false
  end.

(** An object with string keys, as the CSV reader builds one per row from
    the header: the list of its properties in column order. *)
Definition object := list (string * value).

(** [o.key]: [undefined] when the object has no such property. *)
Fixpoint get (o : object) (key : string) : value :=
  match o with
  | (k, v) :: rest => if String.eqb k key then v else get rest key
  | [] => VUndefined
  end.

End Js.

(** ** The CSV reader (PapaParse)

    Both pages read the file with [Papa.parse(csv, {header: true,
    skipEmptyLines: true, ...})]. Splitting the text into cells is the
    reader's work and is not modelled: a raw row is the list of its cells,
    each paired with the name of its column. What the pages choose is how a
    cell becomes a value: a [transform] callback on the map page, the
    reader's [dynamicTyping] on the analysis page. *)

Module Papa.
Import Js.

Definition rawRow := list (string * string).

(** With [transform], every cell is replaced by what the callback returns
    for it and the name of its column; rows are neither added nor removed. *)
Definition parseWith (convert : string -> string -> value)
    (rows : list rawRow) : list object :=
  map (map (fun cell : string * string =>
              (fst cell, convert (snd cell) (fst cell)))) rows.

(** *** Dynamic typing

    The reader's [parseDynamic]: [true]/[TRUE] and [false]/[FALSE] become
    booleans, a cell that passes [testFloat] becomes [parseFloat] of it, a
    cell in ISO date-time form becomes a [Date], the empty cell becomes
    [null], and any other cell stays the string it is. *)

Fixpoint allWhiteSpace (s : string) : bool :=
  match s with
  | String c r => isWhiteSpace c && allWhiteSpace r
  | EmptyString => true
  end.

(** The reader's [FLOAT] pattern:
    [^\s*-?(\d+\.?|\.\d+|\d+\.\d+)([eE][-+]?\d+)?\s*$]. *)
Definition matchesFLOAT (s : string) : bool :=
  let '(_, r) := scanSign false (trimStart s) in
  match scanMantissaExponent r with
  | Some (_, rest) => allWhiteSpace rest
  | None => false
  end.

Definition MAX_FLOAT : float := 9007199254740992%float.
Definition MIN_FLOAT : float := (- MAX_FLOAT)%float.

Definition testFloat (s : string) : bool :=
  if matchesFLOAT s then
    let floatValue := parseFloat s in
    PrimFloat.ltb MIN_FLOAT floatValue && PrimFloat.ltb floatValue MAX_FLOAT
  else false.

(** One position of a fixed-width pattern: a character class. *)
Definition charIn (lo hi : ascii) (c : ascii) : bool :=
  ((nat_of_ascii lo <=? nat_of_ascii c)
   && (nat_of_ascii c <=? nat_of_ascii hi))%nat.

Fixpoint matchClasses (classes : list (ascii -> bool)) (s : string)
  : option string :=
  match classes, s with
  | [], _ => Some s
  | cl :: cls, String c r => if cl c then matchClasses cls r else None
  | _ :: _, EmptyString => None
  end.

Definition digitClass : ascii -> bool := charIn "0" "9".
Definition litClass (a : ascii) : ascii -> bool := Ascii.eqb a.

(** [\d{4}-[01]\d-[0-3]\dT[0-2]\d:[0-5]\d], the head of every alternative
    of the reader's [ISO_DATE] pattern. *)
Definition isoDateHead : list (ascii -> bool) :=
  [ digitClass; digitClass; digitClass; digitClass; litClass "-";
    charIn "0" "1"; digitClass; litClass "-";
    charIn "0" "3"; digitClass; litClass "T";
    charIn "0" "2"; digitClass; litClass ":";
    charIn "0" "5"; digitClass ].

(** [([+-][0-2]\d:[0-5]\d|Z)$]. *)
Definition matchesZone (s : string) : bool :=
  match s with
  | String "Z" EmptyString => true
  | String c r =>
      (Ascii.eqb c "+" || Ascii.eqb c "-")
      && match matchClasses [ charIn "0" "2"; digitClass; litClass ":";
                              charIn "0" "5"; digitClass ] r with
         | Some EmptyString => true
         | _ => false
         end
  | EmptyString => false
  end.

(** The reader's [ISO_DATE] pattern: the head, then seconds with a
    fraction, seconds alone or nothing, then the zone. *)
Definition matchesISO_DATE (s : string) : bool :=
  match matchClasses isoDateHead s with
  | Some r =>
      matchesZone r
      || match matchClasses [ litClass ":"; charIn "0" "5"; digitClass ] r with
         | Some r1 =>
             matchesZone r1
             || match r1 with
                | String "." r2 =>
                    match scanDigits digitOf 10 r2 0%Z 0 with
                    | (_, S _, r3) => matchesZone r3
                    | _ => false
                    end
                | _ => false
                end
         | None => false
         end
  | None => false
  end.

Section DynamicTyping.

(** The time value of [new Date(s)] in the host engine. *)
Variable dateValue : string -> float.

Definition parseDynamic (v : string) : value :=
  if (String.eqb v "true" || String.eqb v "TRUE")%bool then VBool true
  else if (String.eqb v "false" || String.eqb v "FALSE")%bool then VBool false
  else if testFloat v then VNum (parseFloat v)
  else if matchesISO_DATE v then VDate (dateValue v)
  else if String.eqb v "" then VNull
  else VStr v.

(** With [dynamicTyping: true] every cell goes through [parseDynamic]. *)
Definition parseDynamicTyping (rows : list rawRow) : list object :=
  parseWith (fun v _ => parseDynamic v) rows.

End DynamicTyping.

End Papa.

(** ** The map page ([src/app/page.tsx]) *)

Module MapPage.
Import Js.

(** [interface PropertyData]. *)
Record PropertyData := {
  name : string;
  url : string;
  bedrooms : float;
  bathrooms : float;
  floors : float;
  land_area : float;
  building_area : float;
  longitude : float;
  latitude : float;
  price : float;
  cluster : float
}.

(** The [filters] state: four strings, as the select and input controls
    deliver them. [filter_cluster] is the field [filters.cluster]. *)
Record Filters := {
  filter_cluster : string;
  minPrice : string;
  maxPrice : string;
  minBedrooms : string
}.

(** The component state ([useState]). *)
Record State := {
  properties : list PropertyData;
  filteredProperties : list PropertyData;
  selectedProperty : option PropertyData;
  loading : bool;
  filters : Filters
}.

Definition defaultFilters : Filters :=
  {| filter_cluster := "all"; minPrice := ""; maxPrice := "";
     minBedrooms := "" |}.

Definition initialState : State :=
  {| properties := []; filteredProperties := []; selectedProperty := None;
     loading := true; filters := defaultFilters |}.

(** *** Ingestion: [parseCSV] *)

Definition includes (fields : list string) (field : string) : bool :=
  existsb (String.eqb field) fields.

(** The [transform] callback of [parseCSV]. *)
Definition transform (v field : string) : value :=
  if includes ["bedrooms"; "bathrooms"; "floors"; "land_area";
               "building_area"; "price"; "cluster"] field
  then VNum (or_else (parseFloat v) PrimFloat.zero)
  else if includes ["longitude"; "latitude"] field
  then VNum (or_else (parseFloat v) PrimFloat.zero)
  else VStr v.

(** [results.data], the objects the reader hands to [complete]. *)
Definition parseCSV (rows : list Papa.rawRow) : list object :=
  Papa.parseWith transform rows.

(** [results.data as PropertyData[]]: the cast is unchecked, so an object is
    read as a [PropertyData] exactly when it has the eleven properties with
    the declared types. *)
Definition asNumber (v : value) : option float :=
  match v with
  | VNum x => Some x
  | _ => None
  end.

Definition asString (v : value) : option string :=
  match v with
  | VStr s => Some s
  | _ => None
  end.

Definition bind {A B : Type} (o : option A) (k : A -> option B) : option B :=
  match o with
  | Some a => k a
  | None => None
  end.

Notation "x <- e ;; k" := (bind e (fun x => k))
  (at level 61, e at next level, right associativity).

Definition asPropertyData (o : object) : option PropertyData :=
  n <- asString (get o "name") ;;
  u <- asString (get o "url") ;;
  bd <- asNumber (get o "bedrooms") ;;
  bt <- asNumber (get o "bathrooms") ;;
  fl <- asNumber (get o "floors") ;;
  la <- asNumber (get o "land_area") ;;
  ba <- asNumber (get o "building_area") ;;
  lo <- asNumber (get o "longitude") ;;
  lt <- asNumber (get o "latitude") ;;
  pr <- asNumber (get o "price") ;;
  cl <- asNumber (get o "cluster") ;;
  Some {| name := n; url := u; bedrooms := bd; bathrooms := bt; floors := fl;
          land_area := la; building_area := ba; longitude := lo;
          latitude := lt; price := pr; cluster := cl |}.

(** The [complete] callback: [setProperties(data); setLoading(false)]. *)
Definition complete (data : list PropertyData) (st : State) : State :=
  {| properties := data; filteredProperties := filteredProperties st;
     selectedProperty := selectedProperty st; loading := false;
     filters := filters st |}.

(** *** Filtering: [applyFilters] *)

(** ToBoolean on a string: only the empty string is falsy. *)
Definition nonEmpty (s : string) : bool := negb (String.eqb s "").

(** [applyFilters]: it reads [properties] and [filters] and stores the
    result with [setFilteredProperties]. *)
Definition applyFilters (st : State) : State :=
  let filters := filters st in
  let filtered := properties st in
  let filtered :=
    if negb (String.eqb (filter_cluster filters) "all")
    then filter (fun p => strictEqNum (cluster p)
                            (parseInt (filter_cluster filters))) filtered
    else filtered in
  let filtered :=
    if nonEmpty (minPrice filters)
    then filter (fun p => ge (price p) (parseFloat (minPrice filters))) filtered
    else filtered in
  let filtered :=
    if nonEmpty (maxPrice filters)
    then filter (fun p => le (price p) (parseFloat (maxPrice filters))) filtered
    else filtered in
  let filtered :=
    if nonEmpty (minBedrooms filters)
    then filter (fun p => ge (bedrooms p) (parseInt (minBedrooms filters)))
           filtered
    else filtered in
  {| properties := properties st; filteredProperties := filtered;
     selectedProperty := selectedProperty st; loading := loading st;
     filters := filters |}.

(** [setFilters], as the controls and [resetFilters] call it. The effect
    on [[properties, filters]] then runs [applyFilters]. *)
Definition setFilters (f : Filters) (st : State) : State :=
  {| properties := properties st; filteredProperties := filteredProperties st;
     selectedProperty := selectedProperty st; loading := loading st;
     filters := f |}.

Definition resetFilters (st : State) : State := setFilters defaultFilters st.

(** [getClusterColor]: the table has the keys 1 to 4; a property key is the
    text of the number, so a number selects an entry exactly when it equals
    the key. *)
Definition getClusterColor (c : float) : string :=
  if strictEqNum c 1%float then "#ef4444"
  else if strictEqNum c 2%float then "#3b82f6"
  else if strictEqNum c 3%float then "#10b981"
  else if strictEqNum c 4%float then "#f59e0b"
  else "#6b7280".

(** *** The other handlers of the page *)

(** The [error] callback of [parseCSV] and the [catch] of
    [loadSampleData]: [setLoading(false)], nothing else. *)
Definition loadFailed (st : State) : State :=
  {| properties := properties st; filteredProperties := filteredProperties st;
     selectedProperty := selectedProperty st; loading := false;
     filters := filters st |}.

(** [handleFileUpload]: when a file was chosen, [setLoading(true)]; the
    reader then hands the text to [parseCSV]. *)
Definition handleFileUpload (hasFile : bool) (st : State) : State :=
  if hasFile then
    {| properties := properties st;
       filteredProperties := filteredProperties st;
       selectedProperty := selectedProperty st; loading := true;
       filters := filters st |}
  else st.

(** [setSelectedProperty], the [onPropertySelect] of the map. *)
Definition setSelectedProperty (p : PropertyData) (st : State) : State :=
  {| properties := properties st; filteredProperties := filteredProperties st;
     selectedProperty := Some p; loading := loading st;
     filters := filters st |}.

(** What can happen to the mounted page. *)
Inductive Event :=
| FileChosen (hasFile : bool)
| ParseComplete (data : list PropertyData)
| ParseError
| FiltersChanged (f : Filters)
| ResetClicked
| MarkerClicked (p : PropertyData).

(** The render that is committed when the handler of the event has set the
    state: the effects have not run yet. *)
Definition update (st : State) (e : Event) : State :=
  match e with
  | FileChosen hasFile => handleFileUpload hasFile st
  | ParseComplete data => complete data st
  | ParseError => loadFailed st
  | FiltersChanged f => setFilters f st
  | ResetClicked => resetFilters st
  | MarkerClicked p => setSelectedProperty p st
  end.

(** The event sets [properties] or [filters], the dependencies of the effect
    that calls [applyFilters]. *)
Definition triggersEffect (e : Event) : bool :=
  match e with
  | ParseComplete _ | FiltersChanged _ | ResetClicked => true
  | FileChosen _ | ParseError | MarkerClicked _ => false
  end.

(** One event and the effect that follows it: the state of the render that
    is committed when the effect, if the event triggers it, has stored its
    result. *)
Definition step (st : State) (e : Event) : State :=
  if triggersEffect e then applyFilters (update st e) else update st e.

(** The page after mounting (the effect runs once on the initial state) and
    a sequence of events, each with its effect. *)
Definition mounted : State := applyFilters initialState.

Definition run (events : list Event) : State := fold_left step events mounted.

(** The renders the page commits, in order: for an event that triggers the
    effect, first the render of the new state, in which [filteredProperties]
    is still the old list, then the render with the result of the effect. *)
Fixpoint rendersFrom (st : State) (events : list Event) : list State :=
  match events with
  | e :: rest =>
      if triggersEffect e
      then update st e :: step st e :: rendersFrom (step st e) rest
      else update st e :: rendersFrom (step st e) rest
  | [] => []
  end.

Definition renders (events : list Event) : list State :=
  initialState :: mounted :: rendersFrom mounted events.

(** *** [capitalizeWords]

    [str.replace(/\b\w/g, (char) => char.toUpperCase())]: a word character
    ([A-Za-z0-9_]) that does not follow a word character is replaced by its
    upper case. *)
Definition isWordChar (c : ascii) : bool :=
  let n := nat_of_ascii c in
  ((48 <=? n) && (n <=? 57) || (65 <=? n) && (n <=? 90) || (n =? 95)
   || (97 <=? n) && (n <=? 122))%nat.

Definition isLowerCase (c : ascii) : bool :=
  let n := nat_of_ascii c in ((97 <=? n) && (n <=? 122))%nat.

(** [toUpperCase] on one word character. *)
Definition toUpperCase (c : ascii) : ascii :=
  if isLowerCase c then ascii_of_nat (nat_of_ascii c - 32) else c.

(** The replacement from a position on; [inWord] says that the character
    before it is a word character. *)
Fixpoint capitalizeFrom (inWord : bool) (str : string) : string :=
  match str with
  | String c rest =>
      String (if isWordChar c && negb inWord then toUpperCase c else c)
             (capitalizeFrom (isWordChar c) rest)
  | EmptyString => EmptyString
  end.

Definition capitalizeWords (str : string) : string :=
  capitalizeFrom false str.

(** The heading of the details card:
    [capitalizeWords(selectedProperty?.name || "")]. *)
Definition detailTitle (selected : option PropertyData) : string :=
  capitalizeWords match selected with
                  | Some p => name p
                  | None => ""
                  end.

End MapPage.

(** ** The map component ([components/SimpleMapComponent]) *)

Module SimpleMapComponent.
Import Js MapPage.

(** What a marker is built from: its position, the colour and the size of
    its icon, the cluster shown in it and the name shown in its popup. *)
Record Marker := {
  position : float * float;
  color : string;
  size : Z;
  label : float;
  popup : string
}.

Definition isSelected (selected : option PropertyData) (p : PropertyData)
  : bool :=
  match selected with
  | Some s => String.eqb (name s) (name p)
  | None => false
  end.

Definition marker (selected : option PropertyData)
    (getClusterColor : float -> string) (p : PropertyData) : Marker :=
  {| position := (latitude p, longitude p);
     color := getClusterColor (cluster p);
     size := if isSelected selected p then 35%Z else 25%Z;
     label := cluster p;
     popup := name p |}.

(** The marker effect. [ready] says that the map and the library are
    loaded; [previous] is the layer of [clusterGroupRef]. When the component
    is not ready or there is no property the effect returns at once and the
    layer stays; otherwise the layer is replaced by one marker per
    property, in order. *)
Definition markerLayer (ready : bool) (previous : list Marker)
    (props : list PropertyData) (selected : option PropertyData)
    (getClusterColor : float -> string) : list Marker :=
  match ready, props with
  | false, _ | _, [] => previous
  | true, _ => map (marker selected getClusterColor) props
  end.

End SimpleMapComponent.

(** ** The analysis page ([src/app/cluster-analysis/page.tsx]) *)

Module ClusterAnalysis.
Import Js.

(** The fallback colour of [CLUSTER_COLORS[...] || "#6b7280"]. *)
Definition fallbackColor : string := "#6b7280".

(** [arr.length] as a number. *)
Definition lengthNumber {A : Type} (l : list A) : float :=
  ofZ (Z.of_nat (List.length l)).

(** [arr.reduce((a, b) => a + b, 0)]. *)
Definition sum (arr : list float) : float :=
  fold_left PrimFloat.add arr PrimFloat.zero.

(** A scatter point [{x, y, cluster}]. *)
Record Point := {
  x : float;
  y : float;
  cluster : value
}.

Section Page.

(** The two constants of the page: the cluster ids [clusters] and the
    colour table [CLUSTER_COLORS], read as a lookup by number ([None] for a
    key the table does not have). *)
Variable clusters : list float.
Variable CLUSTER_COLORS : float -> option string.

(** [data.filter((d) => d.cluster === c)]. *)
Definition group (data : list object) (c : float) : list object :=
  filter (fun d => strictEq (get d "cluster") c) data.

Definition clusterCounts (data : list object) : list nat :=
  map (fun c => List.length (group data c)) clusters.

(** The [data] of a bar series: for each cluster id the mean of [field]
    over the group, or 0 when no value of the group is a number. The five
    series of the page differ in the field only. *)
Definition mean (field : string) (data : list object) (c : float) : float :=
  let arr :=
    filter (fun v => negb (isNaN v))
      (map (fun d => toNumber (get d field)) (group data c)) in
  match List.length arr with
  | O => PrimFloat.zero
  | _ => (sum arr / lengthNumber arr)%float
  end.

Definition priceBar (data : list object) : list float :=
  map (mean "price" data) clusters.

Definition landBar (data : list object) : list float :=
  map (mean "land_area" data) clusters.

Definition buildingBar (data : list object) : list float :=
  map (mean "building_area" data) clusters.

Definition bedroomBar (data : list object) : list float :=
  map (mean "bedrooms" data) clusters.

Definition bathroomBar (data : list object) : list float :=
  map (mean "bathrooms" data) clusters.

(** [CLUSTER_COLORS[Number(v)] || "#6b7280"]. *)
Definition colorOf (v : value) : string :=
  match CLUSTER_COLORS (toNumber v) with
  | Some col => col
  | None => fallbackColor
  end.

(** [scatterPriceLand]: the points are the records whose two coordinates
    are numbers; the colours are computed from [data] itself. *)
Definition toPoint (d : object) : Point :=
  {| x := toNumber (get d "land_area");
     y := toNumber (get d "price");
     cluster := get d "cluster" |}.

Definition validPoint (p : Point) : bool :=
  negb (isNaN (x p)) && negb (isNaN (y p)).

Definition scatterData (data : list object) : list Point :=
  filter validPoint (map toPoint data).

Definition scatterBackgroundColor (data : list object) : list string :=
  map (fun d => colorOf (get d "cluster")) data.

(** [validProperties]: the records shown on the page's map. *)
Definition validCoordinates (d : object) : bool :=
  match get d "latitude", get d "longitude" with
  | VNum lat, VNum lng => negb (isNaN lat) && negb (isNaN lng)
  | _, _ => false
  end.

Definition validProperties (data : list object) : list object :=
  filter validCoordinates data.

End Page.

(** The page as it is: three clusters, numbered from 0. *)
Module Current.

Definition clusters : list float := [0; 1; 2]%float.

Definition CLUSTER_COLORS (c : float) : option string :=
  if strictEqNum c 0%float then Some "#ef4444"
  else if strictEqNum c 1%float then Some "#3b82f6"
  else if strictEqNum c 2%float then Some "#10b981"
  else None.

End Current.

(** The other copy of the page ([src/unnamed/part_001]): four clusters,
    numbered from 1. The rest of the code is the same. *)
Module Earlier.

Definition clusters : list float := [1; 2; 3; 4]%float.

Definition CLUSTER_COLORS (c : float) : option string :=
  if strictEqNum c 1%float then Some "#ef4444"
  else if strictEqNum c 2%float then Some "#3b82f6"
  else if strictEqNum c 3%float then Some "#10b981"
  else if strictEqNum c 4%float then Some "#f59e0b"
  else None.

End Earlier.

End ClusterAnalysis.

(** * The specification's vocabulary *)

(** ** Filter criteria *)

Module FilterSpec.
Import Js MapPage.

(** A criterion is a test on one record. *)
Definition criterion := PropertyData -> bool.

(** The criteria that are active under [f]: the cluster criterion when a
    cluster other than ["all"] is selected, and each bound that is set (its
    text is not empty), compared with the number read from its text. *)
Definition clusterCriterion (f : Filters) : list criterion :=
  if String.eqb (filter_cluster f) "all" then []
  else [fun p => strictEqNum (cluster p) (parseInt (filter_cluster f))].

Definition minPriceCriterion (f : Filters) : list criterion :=
  if String.eqb (minPrice f) "" then []
  else [fun p => ge (price p) (parseFloat (minPrice f))].

Definition maxPriceCriterion (f : Filters) : list criterion :=
  if String.eqb (maxPrice f) "" then []
  else [fun p => le (price p) (parseFloat (maxPrice f))].

Definition minBedroomsCriterion (f : Filters) : list criterion :=
  if String.eqb (minBedrooms f) "" then []
  else [fun p => ge (bedrooms p) (parseInt (minBedrooms f))].

Definition activeCriteria (f : Filters) : list criterion :=
  clusterCriterion f ++ minPriceCriterion f ++ maxPriceCriterion f
  ++ minBedroomsCriterion f.

(** A record satisfies [f] when it passes every active criterion. *)
Definition satisfies (f : Filters) (p : PropertyData) : bool :=
  forallb (fun c : criterion => c p) (activeCriteria f).

(** The state in which [properties] is [R] and [filters] is [f]. *)
Definition stateOf (R : list PropertyData) (f : Filters) : State :=
  setFilters f (complete R initialState).

(** [tightens f f']: [f'] is [f] with one bound tightened, the bound being
    set to the text of a number in both. *)
Definition numericBound (parse : string -> float) (s : string) : Prop :=
  nonEmpty s = true /\ isNaN (parse s) = false.

Inductive tightens : Filters -> Filters -> Prop :=
| raise_minPrice c lo lo' hi b :
    numericBound parseFloat lo -> numericBound parseFloat lo' ->
    le (parseFloat lo) (parseFloat lo') = true ->
    tightens {| filter_cluster := c; minPrice := lo; maxPrice := hi;
                minBedrooms := b |}
             {| filter_cluster := c; minPrice := lo'; maxPrice := hi;
                minBedrooms := b |}
| lower_maxPrice c lo hi hi' b :
    numericBound parseFloat hi -> numericBound parseFloat hi' ->
    le (parseFloat hi') (parseFloat hi) = true ->
    tightens {| filter_cluster := c; minPrice := lo; maxPrice := hi;
                minBedrooms := b |}
             {| filter_cluster := c; minPrice := lo; maxPrice := hi';
                minBedrooms := b |}
| raise_minBedrooms c lo hi b b' :
    numericBound parseInt b -> numericBound parseInt b' ->
    le (parseInt b) (parseInt b') = true ->
    tightens {| filter_cluster := c; minPrice := lo; maxPrice := hi;
                minBedrooms := b |}
             {| filter_cluster := c; minPrice := lo; maxPrice := hi;
                minBedrooms := b' |}.

End FilterSpec.

(** ** Aggregates *)

Module AggregateSpec.
Import Js ClusterAnalysis.

(** The number of records whose [cluster] is the id [c]. *)
Fixpoint groupSize (data : list object) (c : float) : nat :=
  match data with
  | d :: rest =>
      if strictEq (get d "cluster") c then S (groupSize rest c)
      else groupSize rest c
  | [] => 0
  end.

(** The field value is a valid number: it is a number, and not NaN. An empty
    cell ([null]), a boolean, a text or a date is none. *)
Definition validNumber (v : value) : option float :=
  match v with
  | VNum x => if isNaN x then None else Some x
  | _ => None
  end.

(** One pass over the records, from the left: the running total of [field]
    over the records of cluster [c] whose value is a valid number, and how
    many they are. *)
Fixpoint tally (field : string) (c : float) (data : list object)
    (total : float) (n : nat) : float * nat :=
  match data with
  | d :: rest =>
      if strictEq (get d "cluster") c then
        match validNumber (get d field) with
        | Some x => tally field c rest (total + x)%float (S n)
        | None => tally field c rest total n
        end
      else tally field c rest total n
  | [] => (total, n)
  end.

(** The arithmetic mean of [field] over the group of [c]: the total divided
    by the number of valid values, defined when there is one at least. *)
Definition arithmeticMean (field : string) (data : list object) (c : float)
  : option float :=
  match tally field c data PrimFloat.zero 0 with
  | (_, O) => None
  | (total, n) => Some (total / ofZ (Z.of_nat n))%float
  end.

(** The values the mean of [field] is taken over. *)
Definition validValues (field : string) (data : list object) (c : float)
  : list float :=
  filter (fun v => negb (isNaN v))
    (map (fun d => toNumber (get d field)) (group data c)).

(** Nothing but a number is converted to a number by [Number]: the field
    of every record of the group is a number, or [Number] of it is NaN. *)
Definition plainValues (field : string) (data : list object) (c : float)
  : bool :=
  forallb (fun d => isNumber (get d field)
                    || isNaN (toNumber (get d field)))
    (group data c).

(** The id list contains the cluster value of every record. *)
Definition covers (ids : list float) (data : list object) : bool :=
  forallb (fun d => existsb (strictEq (get d "cluster")) ids) data.

(** No id occurs twice in the list. *)
Fixpoint distinct (ids : list float) : bool :=
  match ids with
  | c :: rest =>
      forallb (fun c' => negb (strictEqNum c c')) rest && distinct rest
  | [] => true
  end.

(** What the record with cluster value [v] adds to the count of [c]. *)
Definition hit (v : value) (c : float) : nat :=
  if strictEq v c then 1 else 0.

(** The colour the page gives to the cluster of a scatter point. *)
Definition pointColor (CLUSTER_COLORS : float -> option string) (p : Point)
  : string :=
  colorOf CLUSTER_COLORS (cluster p).

(** The record survives in the scatter series. *)
Definition kept (d : object) : bool := validPoint (toPoint d).

(** The cluster value of the record is one of the ids. *)
Definition covered (ids : list float) (d : object) : bool :=
  existsb (strictEq (get d "cluster")) ids.

End AggregateSpec.

(** ** Ingestion *)

Module IngestSpec.
Import Js MapPage.

(** The numeric columns of the input file, and all its columns in the order
    of the header. *)
Definition numericColumns : list string :=
  [ "bedrooms"; "bathrooms"; "floors"; "land_area"; "building_area";
    "price"; "cluster"; "longitude"; "latitude" ].

Definition columns : list string :=
  [ "name"; "url"; "bedrooms"; "bathrooms"; "floors"; "land_area";
    "building_area"; "longitude"; "latitude"; "price"; "cluster" ].

(** The cell of a raw row in the column [field]. *)
Fixpoint cell (row : Papa.rawRow) (field : string) : option string :=
  match row with
  | (k, v) :: rest => if String.eqb k field then Some v else cell rest field
  | [] => None
  end.

(** The row has a cell in every column of the file format. *)
Definition hasColumns (row : Papa.rawRow) : bool :=
  forallb (fun field => match cell row field with
                        | Some _ => true
                        | None => false
                        end) columns.

(** No numeric field of the record is NaN. *)
Definition allNumbers (p : PropertyData) : bool :=
  forallb (fun x => negb (isNaN x))
    [ bedrooms p; bathrooms p; floors p; land_area p; building_area p;
      price p; cluster p; longitude p; latitude p ].

(** The numeric field of the record that is stored under the column name
    [field]. *)
Definition numericField (p : PropertyData) (field : string) : option float :=
  if String.eqb field "bedrooms" then Some (bedrooms p)
  else if String.eqb field "bathrooms" then Some (bathrooms p)
  else if String.eqb field "floors" then Some (floors p)
  else if String.eqb field "land_area" then Some (land_area p)
  else if String.eqb field "building_area" then Some (building_area p)
  else if String.eqb field "price" then Some (price p)
  else if String.eqb field "cluster" then Some (cluster p)
  else if String.eqb field "longitude" then Some (longitude p)
  else if String.eqb field "latitude" then Some (latitude p)
  else None.

(** What [parseFloat(v) || 0] stores for the text [v]. *)
Definition stored (v : string) : float := or_else (parseFloat v) PrimFloat.zero.

(** The object the map page makes of a raw row. *)
Definition converted (row : Papa.rawRow) : object :=
  map (fun c : string * string => (fst c, transform (snd c) (fst c))) row.

End IngestSpec.

(** ** The page and its map *)

Module PageSpec.
Import Js MapPage.

(** The marker is drawn in the size of the selected one. *)
Definition enlarged (m : SimpleMapComponent.Marker) : bool :=
  (SimpleMapComponent.size m =? 35)%Z.

(** The property has the name of [s]. *)
Definition namedLike (s p : PropertyData) : bool :=
  String.eqb (name s) (name p).

(** The event is no click on a marker. *)
Definition notClick (e : Event) : bool :=
  match e with
  | MarkerClicked _ => false
  | _ => true
  end.

(** One of the four criteria is set to a text that is not a number. *)
Definition unparseable (f : Filters) : bool :=
  negb (String.eqb (filter_cluster f) "all")
  && isNaN (parseInt (filter_cluster f))
  || nonEmpty (minPrice f) && isNaN (parseFloat (minPrice f))
  || nonEmpty (maxPrice f) && isNaN (parseFloat (maxPrice f))
  || nonEmpty (minBedrooms f) && isNaN (parseInt (minBedrooms f)).

(** Both price bounds are set and the upper one is below the lower one. *)
Definition emptyRange (f : Filters) : bool :=
  nonEmpty (minPrice f) && nonEmpty (maxPrice f)
  && PrimFloat.ltb (parseFloat (maxPrice f)) (parseFloat (minPrice f)).

(** The characters of a text that start a word: the word characters that do
    not follow a word character. *)
Fixpoint wordStarts (inWord : bool) (str : string) : list ascii :=
  match str with
  | String c rest =>
      if isWordChar c && negb inWord then c :: wordStarts (isWordChar c) rest
      else wordStarts (isWordChar c) rest
  | EmptyString => []
  end.

(** The text with every letter in upper case. *)
Fixpoint upperAll (str : string) : string :=
  match str with
  | String c rest => String (toUpperCase c) (upperAll rest)
  | EmptyString => EmptyString
  end.

(** The filtered list is the filter of the current properties by the current
    criteria. *)
Definition inSync (st : State) : Prop :=
  filteredProperties st
  = filter (FilterSpec.satisfies (filters st)) (properties st).

(** In a sequence of renders, every render is in sync or is followed at once
    by the render that [applyFilters] makes of it. *)
Fixpoint settles (l : list State) : Prop :=
  match l with
  | st :: rest =>
      (inSync st \/ hd_error rest = Some (applyFilters st)) /\ settles rest
  | [] => True
  end.

End PageSpec.

(** ** Sample data *)

Module Fixtures.
Import Js MapPage.

Definition house (n : string) (bd pr cl : float) : PropertyData :=
  {| name := n; url := ""; bedrooms := bd; bathrooms := 1%float;
     floors := 1%float; land_area := 120%float; building_area := 90%float;
     longitude := 107.5%float; latitude := (-6.75)%float;
     price := pr; cluster := cl |}.

Definition listings : list PropertyData :=
  [ house "A" 2 100 1; house "B" 3 200 2; house "C" 4 300 1 ]%float.

Definition withMinPrice (s : string) : Filters :=
  {| filter_cluster := "all"; minPrice := s; maxPrice := "";
     minBedrooms := "" |}.

(** Five listings, two of which are in cluster 2 with a price of 1000 at
    least and three bedrooms at least. *)
Definition five : list PropertyData :=
  [ house "A" 3 1500 2; house "B" 2 2000 2; house "C" 4 900 2;
    house "D" 5 3000 1; house "E" 3 1000 2 ]%float.

Definition conjunction : Filters :=
  {| filter_cluster := "2"; minPrice := "1000"; maxPrice := "";
     minBedrooms := "3" |}.

(** What the bedrooms select stores when its entry "Any" is chosen. *)
Definition anyBedrooms : Filters :=
  {| filter_cluster := "all"; minPrice := ""; maxPrice := "";
     minBedrooms := "any" |}.

(** Rows of the analysis page. *)
Definition row (cl pr la : value) : object :=
  [ ("name", VStr "x"); ("land_area", la); ("price", pr); ("cluster", cl) ].

(** Cluster 1 holds the prices 100, 200 and 300; cluster 2 is empty. *)
Definition priced : list object :=
  [ row (VNum 1) (VNum 100) (VNum 120); row (VNum 0) (VNum 50) (VNum 80);
    row (VNum 1) (VNum 200) (VNum 150); row (VNum 1) (VNum 300) (VNum 90) ]%float.

(** The middle record has no valid land area; the clusters of the other
    two differ from its own. *)
Definition oneDroppedMixed : list object :=
  [ row (VNum 0) (VNum 100) (VNum 120); row (VNum 1) VNull (VStr "wide");
    row (VNum 2) (VNum 300) (VNum 90) ]%float.

(** The middle record has no valid price. *)
Definition oneDropped : list object :=
  [ row (VNum 0) (VNum 100) (VNum 120); row (VNum 1) (VStr "abc") (VNum 80);
    row (VNum 1) (VNum 300) (VNum 90) ]%float.

(** A raw row of the file whose coordinates are not numbers. *)
Definition unlocated : Papa.rawRow :=
  [ ("name", "Rumah"); ("url", "http://x"); ("bedrooms", "3");
    ("bathrooms", "2"); ("floors", "1"); ("land_area", "120");
    ("building_area", "90.5"); ("longitude", "n/a"); ("latitude", "");
    ("price", "1500"); ("cluster", "2") ].

Definition withPrices (lo hi : string) : Filters :=
  {| filter_cluster := "all"; minPrice := lo; maxPrice := hi;
     minBedrooms := "" |}.

(** A raw row of the file whose cluster is missing. *)
Definition unclustered : Papa.rawRow :=
  [ ("name", "rumah asri"); ("url", "http://y"); ("bedrooms", "2");
    ("bathrooms", "1"); ("floors", "2"); ("land_area", "72.5");
    ("building_area", "60"); ("longitude", "107.5"); ("latitude", "-6.75");
    ("price", "850"); ("cluster", "-") ].

Definition withCluster (c : string) : Filters :=
  {| filter_cluster := c; minPrice := ""; maxPrice := "";
     minBedrooms := "" |}.

(** The last record is of a cluster the three-cluster page does not know. *)
Definition withStranger : list object :=
  [ row (VNum 0) (VNum 100) (VNum 120); row (VNum 2) (VNum 50) (VNum 80);
    row (VNum 3) (VNum 200) (VNum 150) ]%float.

(** A raw row of the analysis page without a latitude. *)
Definition noLatitude : Papa.rawRow :=
  [ ("name", "Rumah"); ("longitude", "107.5"); ("latitude", "");
    ("price", "1500"); ("cluster", "2") ].

(** A record of cluster 1 with the price [pr], and the file of four such
    records whose last price cell is empty. *)
Definition sale (pr : value) : object :=
  [ ("name", VStr "rumah"); ("price", pr); ("cluster", VNum 1%float) ].

Definition emptyPrice : list Papa.rawRow :=
  [ [ ("name", "rumah"); ("price", "100"); ("cluster", "1") ];
    [ ("name", "rumah"); ("price", "200"); ("cluster", "1") ];
    [ ("name", "rumah"); ("price", "300"); ("cluster", "1") ];
    [ ("name", "rumah"); ("price", ""); ("cluster", "1") ] ].

(** A row of the map page that stops after its longitude. *)
Definition shortRow : Papa.rawRow :=
  [ ("name", "Rumah"); ("url", "http://x"); ("bedrooms", "3");
    ("bathrooms", "2"); ("floors", "1"); ("land_area", "120");
    ("building_area", "90.5"); ("longitude", "107.5") ].

End Fixtures.

(** * Properties *)

(** ** Order and equality of numbers *)

Module NumberFacts.
Import Js.

Lemma compare_cont_spec (m1 m2 : positive) :
  CompareSpec (m1 = m2) (m1 < m2)%positive (m2 < m1)%positive
    (Pos.compare_cont Eq m1 m2).
Proof. exact (Pos.compare_spec m1 m2). Qed.

(** Case analysis on every comparison of exponents and of mantissas in
    sight, closed by linear arithmetic. *)
Ltac compare_cases :=
  repeat match goal with
    | H : context [Z.compare ?a ?b] |- _ => destruct (Z.compare_spec a b)
    | |- context [Z.compare ?a ?b] => destruct (Z.compare_spec a b)
    end;
  repeat match goal with
    | H : context [Pos.compare_cont Eq ?a ?b] |- _ =>
        destruct (compare_cont_spec a b)
    | |- context [Pos.compare_cont Eq ?a ?b] =>
        destruct (compare_cont_spec a b)
    end;
  simpl in *; try reflexivity; try discriminate; try (exfalso; lia).

Lemma SFleb_trans a b c :
  SFleb a b = true -> SFleb b c = true -> SFleb a c = true.
Proof.
  unfold SFleb, SFcompare.
  destruct a as [sa | sa | | sa ma ea], b as [sb | sb | | sb mb eb],
    c as [sc | sc | | sc mc ec];
    try destruct sa; try destruct sb; try destruct sc;
    try reflexivity; try discriminate;
    intros Hab Hbc; compare_cases.
Qed.

Lemma leb_trans x y z :
  PrimFloat.leb x y = true -> PrimFloat.leb y z = true ->
  PrimFloat.leb x z = true.
Proof.
  rewrite !leb_spec. apply SFleb_trans.
Qed.

Lemma SFeqb_join x a b :
  SFeqb x a = true -> SFeqb x b = true -> SFeqb a b = true.
Proof.
  unfold SFeqb, SFcompare.
  destruct x as [sx | sx | | sx mx ex], a as [sa | sa | | sa ma ea],
    b as [sb | sb | | sb mb eb];
    try destruct sx; try destruct sa; try destruct sb;
    try reflexivity; try discriminate;
    intros Hxa Hxb; compare_cases.
Qed.

(** Two numbers equal to a third one are equal. *)
Lemma strictEqNum_join x a b :
  strictEqNum x a = true -> strictEqNum x b = true -> strictEqNum a b = true.
Proof.
  unfold strictEqNum. rewrite !eqb_spec. apply SFeqb_join.
Qed.

(** A truthy number is not NaN, and neither is what [x || 0] returns. *)
Lemma truthy_not_NaN x : truthy x = true -> isNaN x = false.
Proof.
  unfold truthy, isNaN. intros H.
  apply negb_true_iff, orb_false_iff in H. apply H.
Qed.

Lemma or_else_zero_not_NaN x : isNaN (or_else x PrimFloat.zero) = false.
Proof.
  unfold or_else. destruct (truthy x) eqn:E.
  - now apply truthy_not_NaN.
  - reflexivity.
Qed.

Lemma NaN_not_truthy x : isNaN x = true -> truthy x = false.
Proof.
  unfold truthy, isNaN. intros ->. now rewrite orb_true_r.
Qed.

(** The scanners on sample texts. *)
Example parseInt_samples :
  map parseInt ["1"; " 42px"; "0x1F"; "-12"; "3.7"; "5+"]
  = [1; 42; 31; -12; 3; 5]%float
  /\ map (fun s => isNaN (parseInt s)) ["any"; "all"; ""; "0x"; "abc"]
     = [true; true; true; true; true].
Proof. split; reflexivity. Qed.

Example parseFloat_samples :
  map parseFloat ["12.5"; "  -1.25e2abc"; ".5"; "1."; "1e"; "-Infinity"; "0x10"]
  = [12.5; -125; 0.5; 1; 1; neg_infinity; 0]%float
  /\ map (fun s => isNaN (parseFloat s)) ["abc"; ""; "."; "e5"; "n/a"]
     = [true; true; true; true; true].
Proof. split; reflexivity. Qed.

Example stringToNumber_samples :
  map stringToNumber [""; "  "; " 12 "; "0x1f"; "0b101"; "1e3"; "+.5"]
  = [0; 0; 12; 31; 5; 1000; 0.5]%float
  /\ map (fun s => isNaN (stringToNumber s)) ["abc"; "12px"; "-0x1f"; "1 2"]
     = [true; true; true; true].
Proof. split; reflexivity. Qed.

Example toNumber_samples :
  map toNumber [VNull; VBool true; VNum 7; VStr "8"; VDate 9]
  = [0; 1; 7; 8; 9]%float
  /\ map (fun v => isNaN (toNumber v)) [VUndefined; VStr "abc"]
     = [true; true].
Proof. split; reflexivity. Qed.

Example parseDynamic_samples (dateValue : string -> float) :
  map (Papa.parseDynamic dateValue)
    ["true"; "FALSE"; "12"; " -1.5e3 "; ""; "abc"; "+5"; "2021-02-03"]
  = [VBool true; VBool false; VNum 12; VNum (-1500); VNull; VStr "abc";
     VStr "+5"; VStr "2021-02-03"]%float
  /\ Papa.parseDynamic dateValue "2021-02-03T10:11:12.5+07:00"
     = VDate (dateValue "2021-02-03T10:11:12.5+07:00").
Proof. split; reflexivity. Qed.

End NumberFacts.

(** ** The filter *)

Module FilterFacts.
Import Js MapPage FilterSpec NumberFacts.

Lemma filter_filter {A : Type} (f g : A -> bool) (l : list A) :
  filter g (filter f l) = filter (fun a => f a && g a) l.
Proof.
  induction l as [| a l IH]; simpl; [reflexivity |].
  destruct (f a); simpl; [destruct (g a) |]; now rewrite IH.
Qed.

Lemma filter_true {A : Type} (l : list A) : filter (fun _ => true) l = l.
Proof.
  induction l as [| a l IH]; simpl; [reflexivity | now rewrite IH].
Qed.

(** One conditional pass of [applyFilters]. *)
Lemma conditional_pass {A : Type} (b : bool) (f : A -> bool) (l : list A) :
  (if b then filter f l else l) = filter (fun a => negb b || f a) l.
Proof.
  destruct b; simpl; [reflexivity | now rewrite filter_true].
Qed.

Lemma satisfies_unfold f p :
  satisfies f p =
    (String.eqb (filter_cluster f) "all"
     || strictEqNum (cluster p) (parseInt (filter_cluster f)))
    && ((String.eqb (minPrice f) ""
         || ge (price p) (parseFloat (minPrice f)))
        && ((String.eqb (maxPrice f) ""
             || le (price p) (parseFloat (maxPrice f)))
            && (String.eqb (minBedrooms f) ""
                || ge (bedrooms p) (parseInt (minBedrooms f))))).
Proof.
  unfold satisfies, activeCriteria, clusterCriterion, minPriceCriterion,
    maxPriceCriterion, minBedroomsCriterion.
  destruct (String.eqb (filter_cluster f) "all"),
    (String.eqb (minPrice f) ""), (String.eqb (maxPrice f) ""),
    (String.eqb (minBedrooms f) "");
    simpl; rewrite ?andb_true_r; reflexivity.
Qed.

(** The four passes amount to one pass with the conjunction. *)
Lemma applyFilters_filter st :
  filteredProperties (applyFilters st)
  = filter (satisfies (filters st)) (properties st).
Proof.
  unfold applyFilters; simpl.
  rewrite !conditional_pass, !filter_filter.
  apply filter_ext; intros p.
  rewrite satisfies_unfold. unfold nonEmpty.
  rewrite !negb_involutive, !andb_assoc. reflexivity.
Qed.

Lemma filter_length_impl {A : Type} (f g : A -> bool) (l : list A) :
  (forall a, f a = true -> g a = true) ->
  (List.length (filter f l) <= List.length (filter g l))%nat.
Proof.
  intros Himp. induction l as [| a l IH]; simpl; [lia |].
  destruct (f a) eqn:Ef.
  - rewrite (Himp a Ef). simpl. lia.
  - destruct (g a); simpl; lia.
Qed.

(** A bound whose text is not a number lets nothing through. *)
Lemma leb_NaN_l x y : isNaN x = true -> PrimFloat.leb x y = false.
Proof.
  unfold isNaN. intros H. rewrite leb_spec.
  unfold Prim2SF at 1. now rewrite H.
Qed.

Lemma filter_false {A : Type} (f : A -> bool) (l : list A) :
  (forall a, f a = false) -> filter f l = [].
Proof.
  intros H. induction l as [| a l IH]; simpl; [reflexivity |].
  now rewrite H.
Qed.

Lemma unparseable_minBedrooms_empties st :
  nonEmpty (minBedrooms (filters st)) = true ->
  isNaN (parseInt (minBedrooms (filters st))) = true ->
  filteredProperties (applyFilters st) = [].
Proof.
  intros Hset Hnan. rewrite applyFilters_filter.
  apply filter_false; intros p. rewrite satisfies_unfold.
  unfold nonEmpty in Hset. apply negb_true_iff in Hset. rewrite Hset.
  unfold ge. rewrite (leb_NaN_l _ _ Hnan). simpl.
  now rewrite !andb_false_r.
Qed.

(** The conjunction of three criteria on five listings keeps the two that
    pass all of them, in their order. *)
Example applyFilters_conjunction :
  map name (filteredProperties
              (applyFilters (stateOf Fixtures.five Fixtures.conjunction)))
  = ["A"; "E"].
Proof. reflexivity. Qed.

(** C1. For every record sequence and every filter criteria, what
    [applyFilters] stores is exactly the records that satisfy every active
    criterion (the selected cluster, the price bounds that are set, the
    bedrooms bound that is set, all inclusive), in the order of the input;
    the source records are left as they are. *)
Theorem applyFilters_exact (st : State) :
  filteredProperties (applyFilters st)
  = filter (satisfies (filters st)) (properties st)
  /\ (forall p, In p (filteredProperties (applyFilters st)) <->
                In p (properties st)
                /\ (forall c, In c (activeCriteria (filters st)) -> c p = true))
  /\ properties (applyFilters st) = properties st.
Proof.
  split; [apply applyFilters_filter | split; [| reflexivity]].
  intros p. rewrite applyFilters_filter, filter_In.
  unfold satisfies. rewrite forallb_forall. reflexivity.
Qed.

(** C2. At the criteria the bedrooms select produces for "Any", the filter
    does not behave as with the bound unset: the text is not a number, and
    every record is dropped. *)
Theorem applyFilters_anyBedrooms :
  isNaN (parseInt "any") = true
  /\ filteredProperties
       (applyFilters (stateOf Fixtures.listings Fixtures.anyBedrooms)) = []
  /\ filteredProperties
       (applyFilters (stateOf Fixtures.listings defaultFilters))
     = Fixtures.listings.
Proof. repeat split. Qed.

(** C4. With the default criteria the filter is the identity: the stored
    result is the record sequence itself, same records in the same order.
    So it is after [resetFilters], whatever the state was. *)
Theorem applyFilters_default (R out : list PropertyData)
    (sel : option PropertyData) (ld : bool) (st : State) :
  filteredProperties
    (applyFilters {| properties := R; filteredProperties := out;
                     selectedProperty := sel; loading := ld;
                     filters := defaultFilters |}) = R
  /\ filteredProperties (applyFilters (resetFilters st)) = properties st.
Proof.
  split.
  - rewrite applyFilters_filter. simpl.
    apply (filter_true R).
  - rewrite applyFilters_filter. simpl.
    apply (filter_true (properties st)).
Qed.

(** C5. Tightening one numeric bound (a higher [minPrice], a lower
    [maxPrice] or a higher [minBedrooms]) never makes the filtered result
    longer. *)
Theorem applyFilters_monotone (st : State) (f f' : Filters) :
  tightens f f' ->
  (List.length (filteredProperties (applyFilters (setFilters f' st)))
   <= List.length (filteredProperties (applyFilters (setFilters f st))))%nat.
Proof.
  intros Ht. rewrite !applyFilters_filter. simpl.
  apply filter_length_impl. intros p.
  rewrite !satisfies_unfold.
  destruct Ht as [c lo lo' hi b [Hlo _] [Hlo' _] Hle
                 | c lo hi hi' b [Hhi _] [Hhi' _] Hle
                 | c lo hi b b' [Hb _] [Hb' _] Hle];
    simpl; unfold nonEmpty in *;
    repeat match goal with
      | H : negb _ = true |- _ => apply negb_true_iff in H; rewrite H
      end;
    simpl; intros Hp;
    repeat match goal with
      | H : _ && _ = true |- _ => apply andb_prop in H; destruct H
      end;
    repeat (apply andb_true_intro; split); try assumption;
    unfold ge, le in *; eapply leb_trans; eassumption.
Qed.

Lemma applyFilters_monotone_witness :
  tightens (Fixtures.withMinPrice "100") (Fixtures.withMinPrice "250")
  /\ (List.length
        (filteredProperties
           (applyFilters (setFilters (Fixtures.withMinPrice "250")
                            (stateOf Fixtures.listings defaultFilters))))
      <= List.length
           (filteredProperties
              (applyFilters (setFilters (Fixtures.withMinPrice "100")
                               (stateOf Fixtures.listings defaultFilters)))))%nat.
Proof.
  assert (Ht : tightens (Fixtures.withMinPrice "100")
                 (Fixtures.withMinPrice "250"))
    by (constructor; try split; reflexivity).
  split; [exact Ht |].
  exact (applyFilters_monotone _ _ _ Ht).
Defined.

End FilterFacts.

(** ** The aggregates *)

Module AggregateFacts.
Import Js ClusterAnalysis AggregateSpec NumberFacts.

Lemma group_length data c : List.length (group data c) = groupSize data c.
Proof.
  induction data as [| d rest IH]; simpl; [reflexivity |].
  destruct (strictEq (get d "cluster") c); simpl; now rewrite IH.
Qed.

(** As long as [Number] converts nothing but numbers, the code's values are
    the valid numbers of the group. *)
Lemma tally_plainValues field c data total n :
  plainValues field data c = true ->
  tally field c data total n
  = (fold_left PrimFloat.add (validValues field data c) total,
     (n + List.length (validValues field data c))%nat).
Proof.
  revert total n. unfold plainValues, validValues, group.
  induction data as [| d rest IH]; intros total n; simpl.
  - now rewrite Nat.add_0_r.
  - destruct (strictEq (get d "cluster") c); simpl; [| apply IH].
    intros H. apply andb_prop in H as [Hd Hrest].
    assert (Hv : validNumber (get d field)
                 = if isNaN (toNumber (get d field)) then None
                   else Some (toNumber (get d field))).
    { destruct (get d field) as [| | b | x | t | t];
        cbn [isNumber orb] in Hd; try (now rewrite Hd); reflexivity. }
    rewrite Hv.
    destruct (isNaN (toNumber (get d field))); simpl; [now apply IH |].
    rewrite (IH _ _ Hrest). now rewrite Nat.add_succ_r.
Qed.

(** For such data each mean is the arithmetic mean of the valid numbers. *)
Lemma mean_arithmeticMean_plain field data c m :
  plainValues field data c = true ->
  arithmeticMean field data c = Some m -> mean field data c = m.
Proof.
  intros Hplain. unfold arithmeticMean, mean.
  rewrite (tally_plainValues _ _ _ _ _ Hplain). simpl.
  fold (validValues field data c).
  destruct (List.length (validValues field data c)) eqn:E; [discriminate |].
  intros [= <-]. unfold sum, lengthNumber. now rewrite E.
Qed.

Lemma mean_empty_group field data c :
  groupSize data c = 0%nat -> mean field data c = PrimFloat.zero.
Proof.
  rewrite <- group_length. intros H.
  apply length_zero_iff_nil in H. unfold mean. now rewrite H.
Qed.

Lemma group_none data c :
  (forall d, In d data -> strictEq (get d "cluster") c = false) ->
  group data c = [].
Proof.
  intros H. induction data as [| d rest IH]; simpl; [reflexivity |].
  rewrite (H d (or_introl eq_refl)). apply IH.
  intros d' Hd'. apply H. now right.
Qed.

(** C3. A cluster id of the list that matches no record has count 0 and
    every mean (price, land area, building area, bedrooms, bathrooms) equal
    to 0, which is a number and not NaN. *)
Theorem empty_group_zero (clusters : list float) (data : list object)
    (i : nat) (c : float) :
  nth_error clusters i = Some c ->
  (forall d, In d data -> strictEq (get d "cluster") c = false) ->
  nth_error (clusterCounts clusters data) i = Some 0%nat
  /\ nth_error (priceBar clusters data) i = Some PrimFloat.zero
  /\ nth_error (landBar clusters data) i = Some PrimFloat.zero
  /\ nth_error (buildingBar clusters data) i = Some PrimFloat.zero
  /\ nth_error (bedroomBar clusters data) i = Some PrimFloat.zero
  /\ nth_error (bathroomBar clusters data) i = Some PrimFloat.zero
  /\ isNaN PrimFloat.zero = false.
Proof.
  intros Hc Hnone.
  unfold clusterCounts, priceBar, landBar, buildingBar, bedroomBar,
    bathroomBar, mean.
  rewrite !nth_error_map, Hc. simpl.
  rewrite (group_none _ _ Hnone). repeat split.
Qed.

Lemma empty_group_zero_witness :
  nth_error Current.clusters 2 = Some 2%float
  /\ nth_error (clusterCounts Current.clusters Fixtures.priced) 2
     = Some 0%nat
  /\ nth_error (priceBar Current.clusters Fixtures.priced) 2
     = Some PrimFloat.zero.
Proof.
  assert (Hnone : forall d, In d Fixtures.priced ->
                    strictEq (get d "cluster") 2%float = false).
  { intros d [<- | [<- | [<- | [<- | []]]]]; reflexivity. }
  pose proof (empty_group_zero Current.clusters Fixtures.priced 2 2%float
                eq_refl Hnone) as H.
  split; [reflexivity |].
  split; [exact (proj1 H) | exact (proj1 (proj2 H))].
Defined.

(** A group whose values are the numbers 100, 200 and 300 has the mean
    price 200, in the code as in the arithmetic. *)
Example mean_of_three_prices :
  arithmeticMean "price" Fixtures.priced 1%float = Some 200%float
  /\ priceBar Current.clusters Fixtures.priced = [50; 200; 0]%float
  /\ clusterCounts Current.clusters Fixtures.priced = [1; 3; 0]%nat.
Proof. repeat split. Qed.

(** C6. The counts are the numbers of records of each cluster, but the mean
    is not taken over the valid numbers only: in a file whose cluster 1 has
    the prices 100, 200 and 300 and one record with an empty price cell, the
    mean of the valid prices is 200 and the page's mean price is 150, the
    empty cell being read as [null] and [Number(null)] being 0. *)
Theorem mean_counts_empty_cell (dateValue : string -> float) :
  Papa.parseDynamicTyping dateValue Fixtures.emptyPrice
  = [ Fixtures.sale (VNum 100); Fixtures.sale (VNum 200);
      Fixtures.sale (VNum 300); Fixtures.sale VNull ]%float
  /\ clusterCounts Current.clusters
       (Papa.parseDynamicTyping dateValue Fixtures.emptyPrice)
     = [0; 4; 0]%nat
  /\ arithmeticMean "price"
       (Papa.parseDynamicTyping dateValue Fixtures.emptyPrice) 1%float
     = Some 200%float
  /\ priceBar Current.clusters
       (Papa.parseDynamicTyping dateValue Fixtures.emptyPrice)
     = [0; 150; 0]%float.
Proof. repeat split. Qed.

(** *** The counts add up *)

Lemma list_sum_map_add {A : Type} (f g : A -> nat) (l : list A) :
  list_sum (map (fun a => f a + g a)%nat l)
  = (list_sum (map f l) + list_sum (map g l))%nat.
Proof.
  induction l as [| a l IH]; simpl; [reflexivity | rewrite IH; lia].
Qed.

Lemma no_hit v ids :
  existsb (strictEq v) ids = false -> list_sum (map (hit v) ids) = 0%nat.
Proof.
  induction ids as [| c rest IH]; simpl; [reflexivity |].
  intros H. apply orb_false_iff in H as [Hc Hrest].
  unfold hit at 1. rewrite Hc. simpl. now apply IH.
Qed.

(** A value equal to an id is equal to no id distinct from it. *)
Lemma hit_excludes v c rest :
  strictEq v c = true ->
  forallb (fun c' => negb (strictEqNum c c')) rest = true ->
  existsb (strictEq v) rest = false.
Proof.
  intros Hv Hd.
  destruct (existsb (strictEq v) rest) eqn:E; [| reflexivity].
  apply existsb_exists in E as (c' & Hin & Hc').
  rewrite forallb_forall in Hd. specialize (Hd c' Hin).
  destruct v; simpl in Hv, Hc'; try discriminate.
  rewrite (strictEqNum_join _ _ _ Hv Hc') in Hd. discriminate.
Qed.

Lemma one_hit v ids :
  distinct ids = true -> existsb (strictEq v) ids = true ->
  list_sum (map (hit v) ids) = 1%nat.
Proof.
  induction ids as [| c rest IH]; simpl; [discriminate |].
  intros Hd Hex. apply andb_prop in Hd as [Hc Hrest].
  unfold hit at 1. destruct (strictEq v c) eqn:E; simpl in *.
  - now rewrite (no_hit _ _ (hit_excludes _ _ _ E Hc)).
  - now apply IH.
Qed.

(** For any list of distinct ids that contains the cluster value of every
    record, the counts add up to the number of records. *)
Lemma counts_total_distinct (ids : list float) (data : list object) :
  distinct ids = true -> covers ids data = true ->
  list_sum (clusterCounts ids data) = List.length data.
Proof.
  intros Hd. unfold clusterCounts, covers.
  induction data as [| d rest IH]; simpl; intros Hcov.
  - induction ids as [| c ids IHids]; simpl; [reflexivity |].
    apply andb_prop in Hd as [_ Hd]. now apply IHids.
  - apply andb_prop in Hcov as [Hex Hrest].
    rewrite (map_ext _ (fun c => hit (get d "cluster") c
                                 + List.length (group rest c))%nat).
    + rewrite list_sum_map_add, (one_hit _ _ Hd Hex).
      now rewrite (IH Hrest).
    + intros c. unfold hit, group. simpl.
      now destruct (strictEq (get d "cluster") c).
Qed.

(** C7. When the page's cluster-id list (that of either copy of the page)
    contains the cluster value of every record, the per-cluster counts add
    up to the length of the record sequence. *)
Theorem counts_total (clusters : list float) (data : list object) :
  clusters = Current.clusters \/ clusters = Earlier.clusters ->
  covers clusters data = true ->
  list_sum (clusterCounts clusters data) = List.length data.
Proof.
  intros [-> | ->]; now apply counts_total_distinct.
Qed.

Lemma counts_total_witness :
  covers Current.clusters Fixtures.priced = true
  /\ list_sum (clusterCounts Current.clusters Fixtures.priced)
     = List.length Fixtures.priced.
Proof.
  split; [reflexivity |].
  exact (counts_total Current.clusters Fixtures.priced
           (or_introl eq_refl) eq_refl).
Defined.

(** *** The scatter series *)

Lemma filter_map_commute {A B : Type} (f : A -> B) (p : B -> bool)
    (l : list A) :
  filter p (map f l) = map f (filter (fun a => p (f a)) l).
Proof.
  induction l as [| a l IH]; simpl; [reflexivity |].
  destruct (p (f a)); simpl; now rewrite IH.
Qed.

Lemma scatterData_kept data :
  scatterData data = map toPoint (filter kept data).
Proof. exact (filter_map_commute toPoint validPoint data). Qed.

Lemma filter_all {A : Type} (p : A -> bool) (l : list A) :
  forallb p l = true -> filter p l = l.
Proof.
  induction l as [| a l IH]; simpl; [reflexivity |].
  intros H. apply andb_prop in H as [Ha Hl]. now rewrite Ha, IH.
Qed.

Lemma pointColors_kept CC data :
  map (pointColor CC) (scatterData data)
  = scatterBackgroundColor CC (filter kept data).
Proof.
  rewrite scatterData_kept, map_map. reflexivity.
Qed.

(** C10, as amended. The colour array has one colour per input record, the
    colour at index [i] being that of the [i]-th input record; the points
    are the surviving records, so the colours that go with them are those
    of the surviving records in order. The two arrays agree as wholes
    exactly when no record is dropped, and when one is dropped the colour
    array is the longer one. *)
Theorem scatter_colors (CC : float -> option string) (data : list object) :
  scatterBackgroundColor CC data
  = map (fun d => colorOf CC (get d "cluster")) data
  /\ List.length (scatterBackgroundColor CC data) = List.length data
  /\ scatterData data = map toPoint (filter kept data)
  /\ map (pointColor CC) (scatterData data)
     = scatterBackgroundColor CC (filter kept data)
  /\ (scatterBackgroundColor CC data
      = map (pointColor CC) (scatterData data)
      <-> forallb kept data = true)
  /\ (forallb kept data = false ->
      (List.length (scatterData data)
       < List.length (scatterBackgroundColor CC data))%nat).
Proof.
  assert (Hlen : List.length (scatterBackgroundColor CC data)
                 = List.length data)
    by (unfold scatterBackgroundColor; apply length_map).
  assert (Hpts : List.length (scatterData data)
                 = List.length (filter kept data))
    by (rewrite scatterData_kept; apply length_map).
  split; [reflexivity |].
  split; [exact Hlen |].
  split; [apply scatterData_kept |].
  split; [apply pointColors_kept |].
  split; [split |].
  - intros Heq. apply filter_length_forallb.
    rewrite <- Hpts, <- Hlen, Heq. now rewrite length_map.
  - intros Hall. rewrite pointColors_kept. now rewrite (filter_all _ _ Hall).
  - intros Hdrop. rewrite Hlen, Hpts.
    pose proof (filter_length_le kept data) as Hle.
    destruct (Nat.eq_dec (List.length (filter kept data)) (List.length data))
      as [E | E]; [| lia].
    apply filter_length_forallb in E. congruence.
Qed.

(** C10, as stated, fails: here the middle record is dropped, and still the
    colour at the index of each surviving point is the colour of that
    point's cluster. *)
Lemma scatter_colors_drop_aligned :
  List.length Fixtures.oneDropped = 3%nat
  /\ List.length (scatterData Fixtures.oneDropped) = 2%nat
  /\ scatterBackgroundColor Current.CLUSTER_COLORS Fixtures.oneDropped
     = ["#ef4444"; "#3b82f6"; "#3b82f6"]
  /\ map (pointColor Current.CLUSTER_COLORS)
       (scatterData Fixtures.oneDropped)
     = ["#ef4444"; "#3b82f6"].
Proof. repeat split. Qed.

(** A dropped record can also shift the colours: here the second point is
    of cluster 2 and is drawn with the colour of cluster 1. *)
Example scatter_colors_drop_shifted :
  map (pointColor Current.CLUSTER_COLORS)
    (scatterData Fixtures.oneDroppedMixed)
  = ["#ef4444"; "#10b981"]
  /\ scatterBackgroundColor Current.CLUSTER_COLORS Fixtures.oneDroppedMixed
     = ["#ef4444"; "#3b82f6"; "#10b981"].
Proof. split; reflexivity. Qed.

End AggregateFacts.

(** ** Ingestion *)

Module IngestFacts.
Import Js MapPage IngestSpec NumberFacts.

(** Reading a property of a converted row is converting the cell of that
    column. *)
Lemma get_parseWith convert row key :
  get (map (fun c : string * string => (fst c, convert (snd c) (fst c))) row)
      key
  = match cell row key with
    | Some v => convert v key
    | None => VUndefined
    end.
Proof.
  induction row as [| [k v] rest IH]; simpl; [reflexivity |].
  destruct (String.eqb k key) eqn:E; [| exact IH].
  apply String.eqb_eq in E. now subst.
Qed.

Lemma transform_numeric v field :
  includes numericColumns field = true ->
  transform v field = VNum (or_else (parseFloat v) PrimFloat.zero).
Proof.
  unfold transform, numericColumns, includes. simpl.
  intros H.
  repeat match goal with
    | |- context [String.eqb field ?s] => destruct (String.eqb field s)
    end; simpl in *; try reflexivity; discriminate.
Qed.

Lemma or_else_NaN x y : isNaN x = true -> or_else x y = y.
Proof.
  intros H. unfold or_else. now rewrite (NaN_not_truthy _ H).
Qed.

Lemma parseDynamic_not_number dateValue v :
  Papa.testFloat v = false -> isNumber (Papa.parseDynamic dateValue v) = false.
Proof.
  intros H. unfold Papa.parseDynamic. rewrite H.
  repeat match goal with
    | |- context [if ?b then _ else _] => destruct b
    end; reflexivity.
Qed.

(** C8, as amended. On the map page every cell of a numeric column becomes
    a number, namely 0 when the text of the cell is not a number, and every
    row is kept. The analysis page reads the file with dynamic typing
    instead, which turns no cell that fails its numeric test into a number:
    there is no default to 0 on that path. *)
Theorem ingestion_default_zero (rows : list Papa.rawRow) (field v : string) :
  includes numericColumns field = true ->
  (exists x, transform v field = VNum x
             /\ isNaN x = false
             /\ (isNaN (parseFloat v) = true -> x = PrimFloat.zero))
  /\ List.length (parseCSV rows) = List.length rows
  /\ (forall dateValue, Papa.testFloat v = false ->
        isNumber (Papa.parseDynamic dateValue v) = false).
Proof.
  intros Hf. split; [| split].
  - exists (or_else (parseFloat v) PrimFloat.zero).
    split; [now apply transform_numeric |].
    split; [apply or_else_zero_not_NaN | apply or_else_NaN].
  - unfold parseCSV, Papa.parseWith. apply length_map.
  - intros dateValue. apply parseDynamic_not_number.
Qed.

Lemma ingestion_default_zero_witness :
  includes numericColumns "price" = true
  /\ transform "abc" "price" = VNum PrimFloat.zero.
Proof.
  split; [reflexivity |].
  destruct (proj1 (ingestion_default_zero [] "price" "abc" eq_refl))
    as (x & Hx & _ & Hz).
  rewrite Hx. f_equal. exact (Hz eq_refl).
Defined.

(** C8, as stated, fails on the analysis page: the text [abc] in the price
    column fails the numeric coercion and stays the string it is, where the
    map page stores 0. *)
Lemma analysis_ingestion_keeps_text :
  isNaN (parseFloat "abc") = true
  /\ parseCSV [[("price", "abc")]] = [[("price", VNum PrimFloat.zero)]]
  /\ (forall dateValue,
        Papa.parseDynamicTyping dateValue [[("price", "abc")]]
        = [[("price", VStr "abc")]]).
Proof. repeat split. Qed.

(** C9, as amended. A row that has a cell in every column of the file and
    goes through the map page's [transform]
    yields a record whose numeric fields are all numbers, none of them NaN;
    a latitude or longitude that is not a number is stored as 0; the record
    passes the test on coordinates and the map component plots it, at its
    stored coordinates, with the others. *)
Theorem ingested_record_plotted (row : Papa.rawRow) :
  hasColumns row = true ->
  exists obj p,
    parseCSV [row] = [obj]
    /\ asPropertyData obj = Some p
    /\ allNumbers p = true
    /\ (forall v, cell row "latitude" = Some v ->
                  isNaN (parseFloat v) = true -> latitude p = PrimFloat.zero)
    /\ (forall v, cell row "longitude" = Some v ->
                  isNaN (parseFloat v) = true -> longitude p = PrimFloat.zero)
    /\ ClusterAnalysis.validCoordinates obj = true
    /\ (forall before after previous selected color,
          In (SimpleMapComponent.marker selected color p)
             (SimpleMapComponent.markerLayer true previous
                (before ++ p :: after) selected color)
          /\ SimpleMapComponent.position
               (SimpleMapComponent.marker selected color p)
             = (latitude p, longitude p)).
Proof.
  unfold hasColumns, columns. simpl. intros Hcols.
  repeat match type of Hcols with
    | context [cell row ?f] =>
        let v := fresh "v" in
        destruct (cell row f) as [v |] eqn:?; simpl in Hcols;
        [| discriminate]
    end.
  eexists. eexists. split; [reflexivity |].
  unfold asPropertyData, ClusterAnalysis.validCoordinates.
  rewrite !get_parseWith.
  repeat match goal with
    | H : cell row _ = Some _ |- _ => rewrite H; clear H
    end.
  repeat match goal with
    | |- context [transform ?w ?f] =>
        first [ rewrite (transform_numeric w f eq_refl)
              | change (transform w f) with (VStr w) ]
    end.
  simpl.
  split; [reflexivity |].
  split; [unfold allNumbers; simpl; now rewrite !or_else_zero_not_NaN |].
  split; [intros w [= <-]; apply or_else_NaN |].
  split; [intros w [= <-]; apply or_else_NaN |].
  split; [now rewrite !or_else_zero_not_NaN |].
  intros before after previous selected color. split; [| reflexivity].
  unfold SimpleMapComponent.markerLayer.
  destruct (before ++ _ :: after) as [| q qs] eqn:E.
  - now destruct before.
  - rewrite <- E. apply in_map, in_elt.
Qed.

Lemma ingested_record_plotted_witness :
  hasColumns Fixtures.unlocated = true
  /\ exists obj p,
       parseCSV [Fixtures.unlocated] = [obj]
       /\ asPropertyData obj = Some p
       /\ allNumbers p = true
       /\ latitude p = PrimFloat.zero
       /\ longitude p = PrimFloat.zero.
Proof.
  split; [reflexivity |].
  destruct (ingested_record_plotted Fixtures.unlocated eq_refl)
    as (obj & p & Hobj & Hp & Hnum & Hlat & Hlng & _).
  exists obj, p.
  repeat split; try assumption.
  - exact (Hlat "" eq_refl eq_refl).
  - exact (Hlng "n/a" eq_refl eq_refl).
Defined.

(** C9, as stated, fails: the [transform] is called on the cells a row has,
    so a row that stops before its latitude yields an object with no
    latitude, price or cluster; these read as [undefined], which is no
    number, and the object is no [PropertyData] and fails the test on
    coordinates. *)
Lemma short_row_lacks_numbers :
  hasColumns Fixtures.shortRow = false
  /\ parseCSV [Fixtures.shortRow]
     = [[ ("name", VStr "Rumah"); ("url", VStr "http://x");
          ("bedrooms", VNum 3); ("bathrooms", VNum 2); ("floors", VNum 1);
          ("land_area", VNum 120); ("building_area", VNum 90.5);
          ("longitude", VNum 107.5) ]]%float
  /\ map (get (IngestSpec.converted Fixtures.shortRow))
       ["latitude"; "price"; "cluster"]
     = [VUndefined; VUndefined; VUndefined]
  /\ isNaN (toNumber VUndefined) = true
  /\ asPropertyData (IngestSpec.converted Fixtures.shortRow) = None
  /\ ClusterAnalysis.validCoordinates
       (IngestSpec.converted Fixtures.shortRow) = false.
Proof. repeat split. Qed.

End IngestFacts.

(** ** More on numbers *)

Module NumberMore.
Import Js NumberFacts.

Lemma Prim2SF_NaN x : isNaN x = true -> Prim2SF x = S754_nan.
Proof. unfold isNaN, Prim2SF. now intros ->. Qed.

Lemma leb_NaN_r x y : isNaN y = true -> PrimFloat.leb x y = false.
Proof.
  intros H. rewrite leb_spec, (Prim2SF_NaN _ H).
  unfold SFleb. now destruct (Prim2SF x).
Qed.

Lemma eqb_NaN_r x y : isNaN y = true -> strictEqNum x y = false.
Proof.
  intros H. unfold strictEqNum. rewrite eqb_spec, (Prim2SF_NaN _ H).
  unfold SFeqb. now destruct (Prim2SF x).
Qed.

Lemma ltb_not_NaN x y :
  PrimFloat.ltb x y = true -> isNaN x = false /\ isNaN y = false.
Proof.
  rewrite ltb_spec. intros H. split.
  - destruct (isNaN x) eqn:E; [| reflexivity].
    rewrite (Prim2SF_NaN _ E) in H. discriminate.
  - destruct (isNaN y) eqn:E; [| reflexivity].
    rewrite (Prim2SF_NaN _ E) in H. unfold SFltb in H.
    now destruct (Prim2SF x).
Qed.

Lemma SFltb_SFleb a b : SFltb a b = true -> SFleb b a = false.
Proof.
  unfold SFltb, SFleb, SFcompare.
  destruct a as [sa | sa | | sa ma ea], b as [sb | sb | | sb mb eb];
    try destruct sa; try destruct sb;
    try reflexivity; try discriminate;
    intros Hab; compare_cases.
Qed.

(** Nothing lies between a bound and a smaller one. *)
Lemma ltb_no_between lo hi x :
  PrimFloat.ltb hi lo = true ->
  PrimFloat.leb lo x && PrimFloat.leb x hi = false.
Proof.
  intros H. destruct (PrimFloat.leb lo x) eqn:E1; [| reflexivity].
  destruct (PrimFloat.leb x hi) eqn:E2; [| reflexivity].
  pose proof (leb_trans _ _ _ E1 E2) as E.
  rewrite ltb_spec in H. rewrite leb_spec in E.
  now rewrite (SFltb_SFleb _ _ H) in E.
Qed.

(** The no-break space is white space for the three conversions and for the
    reader's numeric test. *)
Example no_break_space_samples :
  map (fun parse => parse (String (ascii_of_nat 160) "300"))
    [parseFloat; parseInt; stringToNumber]
  = [300; 300; 300]%float
  /\ stringToNumber ("300" ++ String (ascii_of_nat 160) "") = 300%float
  /\ Papa.testFloat (String (ascii_of_nat 160) "300") = true.
Proof. repeat split. Qed.

End NumberMore.

(** ** The filter at its edges, and the page around it *)

Module PageFacts.
Import Js MapPage FilterSpec PageSpec NumberFacts NumberMore FilterFacts.

Lemma satisfies_false_filter R f :
  (forall p, In p R -> satisfies f p = false) -> filter (satisfies f) R = [].
Proof.
  intros H. induction R as [| p R IH]; simpl; [reflexivity |].
  rewrite (H p (or_introl eq_refl)). apply IH.
  intros q Hq. apply H. now right.
Qed.

(** A criterion set to a text that is not a number lets no record through,
    whichever of the four it is. *)
Theorem unparseable_criterion_empties (st : State) :
  unparseable (filters st) = true ->
  filteredProperties (applyFilters st) = [].
Proof.
  intros Hu. rewrite applyFilters_filter.
  apply filter_false; intros p. rewrite satisfies_unfold.
  unfold unparseable, nonEmpty, ge, le in *.
  repeat match type of Hu with
    | _ || _ = true => apply orb_prop in Hu; destruct Hu as [Hu | Hu]
    end;
    apply andb_prop in Hu; destruct Hu as [Hset Hnan];
    apply negb_true_iff in Hset; rewrite Hset; simpl.
  - now rewrite (eqb_NaN_r _ _ Hnan).
  - rewrite (leb_NaN_l _ _ Hnan). simpl. apply andb_false_r.
  - rewrite (leb_NaN_r _ _ Hnan). simpl. now rewrite !andb_false_r.
  - rewrite (leb_NaN_l _ _ Hnan). simpl. now rewrite !andb_false_r.
Qed.

Lemma unparseable_criterion_empties_witness :
  unparseable (Fixtures.withPrices "" "n/a") = true
  /\ filteredProperties
       (applyFilters
          (stateOf Fixtures.listings (Fixtures.withPrices "" "n/a"))) = [].
Proof.
  split; [reflexivity |].
  exact (unparseable_criterion_empties
           (stateOf Fixtures.listings (Fixtures.withPrices "" "n/a"))
           eq_refl).
Defined.

(** A price range whose upper bound is below its lower bound is empty. *)
Theorem empty_range_empties (st : State) :
  emptyRange (filters st) = true ->
  filteredProperties (applyFilters st) = [].
Proof.
  unfold emptyRange, nonEmpty. intros H.
  apply andb_prop in H as [H Hlt]. apply andb_prop in H as [Hlo Hhi].
  apply negb_true_iff in Hlo, Hhi.
  rewrite applyFilters_filter.
  apply filter_false; intros p. rewrite satisfies_unfold, Hlo, Hhi. simpl.
  pose proof (ltb_no_between _ _ (price p) Hlt) as Hb.
  unfold ge, le.
  destruct (PrimFloat.leb (parseFloat (minPrice (filters st))) (price p));
    simpl in *; [| apply andb_false_r].
  rewrite Hb. simpl. apply andb_false_r.
Qed.

Lemma empty_range_empties_witness :
  emptyRange (Fixtures.withPrices "300" "100") = true
  /\ filteredProperties
       (applyFilters
          (stateOf Fixtures.listings (Fixtures.withPrices "300" "100"))) = [].
Proof.
  split; [reflexivity |].
  exact (empty_range_empties
           (stateOf Fixtures.listings (Fixtures.withPrices "300" "100"))
           eq_refl).
Defined.

(** *** The state of the page *)

Lemma applyFilters_inSync st : inSync (applyFilters st).
Proof. exact (applyFilters_filter st). Qed.

Lemma update_inSync st e :
  triggersEffect e = false -> inSync st -> inSync (update st e).
Proof.
  unfold inSync. intros He H.
  destruct e as [[|] | data | | f | | p]; try discriminate; exact H.
Qed.

Lemma step_inSync st e : inSync st -> inSync (step st e).
Proof.
  intros H. unfold step. destruct (triggersEffect e) eqn:E.
  - apply applyFilters_inSync.
  - now apply update_inSync.
Qed.

Lemma fold_step_inSync events st :
  inSync st -> inSync (fold_left step events st).
Proof.
  revert st. induction events as [| e events IH]; intros st H; simpl.
  - exact H.
  - apply IH. now apply step_inSync.
Qed.

Lemma rendersFrom_settles events st :
  inSync st -> settles (rendersFrom st events).
Proof.
  revert st. induction events as [| e events IH]; intros st H; simpl;
    [exact I |].
  pose proof (step_inSync st e H) as Hs.
  unfold step in *. destruct (triggersEffect e) eqn:E; simpl.
  - split; [now right |]. split; [now left |]. now apply IH.
  - split; [now left |]. now apply IH.
Qed.

Lemma last_cons {A : Type} (l : list A) (a d : A) :
  last (a :: l) d = last l a.
Proof.
  revert a d. induction l as [| b l IH]; intros a d; [reflexivity |].
  change (last (a :: b :: l) d) with (last (b :: l) d).
  now rewrite (IH b d), (IH b a).
Qed.

Lemma rendersFrom_last events st :
  last (rendersFrom st events) st = fold_left step events st.
Proof.
  revert st. induction events as [| e events IH]; intros st; [reflexivity |].
  cbn [rendersFrom fold_left].
  destruct (triggersEffect e) eqn:E.
  - rewrite !last_cons. apply IH.
  - rewrite last_cons.
    replace (update st e) with (step st e)
      by (unfold step; now rewrite E).
    apply IH.
Qed.

(** The filtered list can be stale, but for one render only. Of the renders
    the page commits after mounting and any sequence of file choices, parse
    completions, parse errors, filter changes, resets and marker clicks,
    each one either shows the filter of its properties by its criteria or
    is followed at once by the render in which the effect has stored that
    filter; the last render is the state after the effects, and there the
    header's "n of m" has n at most m. *)
Theorem stale_for_one_render (events : list Event) :
  settles (renders events)
  /\ last (renders events) initialState = run events
  /\ filteredProperties (run events)
     = filter (satisfies (filters (run events))) (properties (run events))
  /\ (List.length (filteredProperties (run events))
      <= List.length (properties (run events)))%nat.
Proof.
  assert (Hm : inSync mounted) by apply applyFilters_inSync.
  assert (H : inSync (run events)) by now apply fold_step_inSync.
  split; [| split; [| split; [exact H |]]].
  - unfold renders. cbn [settles hd_error].
    split; [now left |]. split; [now left |].
    now apply rendersFrom_settles.
  - unfold renders, run. rewrite !last_cons. apply rendersFrom_last.
  - rewrite H. apply filter_length_le.
Qed.

(** The stale render exists: when a file of one record replaces a file of
    three, the first render after the parse shows three filtered records of
    one, and the next one shows one of one. *)
Example stale_header :
  map (fun st => (List.length (filteredProperties st),
                  List.length (properties st)))
    (rendersFrom (run [ParseComplete Fixtures.listings])
       [ParseComplete [Fixtures.house "Z" 1 10 1]])
  = [(3, 1); (1, 1)]%nat.
Proof. reflexivity. Qed.

Lemma step_selected st e :
  notClick e = true -> selectedProperty (step st e) = selectedProperty st.
Proof.
  destruct e as [[|] | data | | f | | p]; simpl; intros H;
    try reflexivity; discriminate.
Qed.

(** Only a click on a marker changes the selection: uploads, parse
    failures, filter changes and resets leave the selected property in the
    details card, listed or not. *)
Theorem selection_survives (st : State) (p : PropertyData)
    (events : list Event) :
  forallb notClick events = true ->
  selectedProperty (fold_left step events (setSelectedProperty p st))
  = Some p.
Proof.
  intros H.
  assert (G : forall s, selectedProperty s = Some p ->
                        selectedProperty (fold_left step events s) = Some p).
  { induction events as [| e events IH]; intros s Hs; simpl; [exact Hs |].
    simpl in H. apply andb_prop in H as [He Hrest].
    apply (IH Hrest). now rewrite (step_selected _ _ He). }
  now apply G.
Qed.

Lemma selection_survives_witness :
  forallb notClick [ParseComplete []; FiltersChanged Fixtures.anyBedrooms]
  = true
  /\ selectedProperty
       (fold_left step
          [ParseComplete []; FiltersChanged Fixtures.anyBedrooms]
          (setSelectedProperty (Fixtures.house "A" 2 100 1) mounted))
     = Some (Fixtures.house "A" 2 100 1).
Proof.
  split; [reflexivity |].
  exact (selection_survives mounted (Fixtures.house "A" 2 100 1)
           [ParseComplete []; FiltersChanged Fixtures.anyBedrooms] eq_refl).
Defined.

(** *** The markers *)

(** When no property passes the criteria, the marker effect returns before
    it removes anything: the markers drawn before stay on the map. *)
Theorem no_match_keeps_markers (st : State) (ready : bool)
    (previous : list SimpleMapComponent.Marker) (color : float -> string) :
  (forall p, In p (properties st) -> satisfies (filters st) p = false) ->
  SimpleMapComponent.markerLayer ready previous
    (filteredProperties (applyFilters st)) (selectedProperty st) color
  = previous.
Proof.
  intros H. rewrite applyFilters_filter, (satisfies_false_filter _ _ H).
  now destruct ready.
Qed.

Lemma no_match_keeps_markers_witness :
  (forall p, In p Fixtures.listings ->
             satisfies Fixtures.anyBedrooms p = false)
  /\ SimpleMapComponent.markerLayer true
       (map (SimpleMapComponent.marker None getClusterColor)
          Fixtures.listings)
       (filteredProperties
          (applyFilters (stateOf Fixtures.listings Fixtures.anyBedrooms)))
       None getClusterColor
     = map (SimpleMapComponent.marker None getClusterColor)
         Fixtures.listings.
Proof.
  assert (H : forall p, In p Fixtures.listings ->
                        satisfies Fixtures.anyBedrooms p = false).
  { intros p [<- | [<- | [<- | []]]]; reflexivity. }
  split; [exact H |].
  exact (no_match_keeps_markers
           (stateOf Fixtures.listings Fixtures.anyBedrooms) true _
           getClusterColor H).
Defined.

Lemma enlarged_marker selected color q :
  enlarged (SimpleMapComponent.marker selected color q)
  = match selected with
    | Some s => namedLike s q
    | None => false
    end.
Proof.
  unfold enlarged, SimpleMapComponent.marker, namedLike. simpl.
  destruct selected as [s |]; simpl; [| reflexivity].
  now destruct (String.eqb (name s) (name q)).
Qed.

(** The selected marker is found by name: when the component is ready and
    there is a property to draw, as many markers are enlarged as there are
    properties with the name of the selected one (none without a
    selection), so properties that share a name are highlighted together. *)
Theorem highlight_by_name (previous : list SimpleMapComponent.Marker)
    (p : PropertyData) (props : list PropertyData)
    (selected : option PropertyData) (color : float -> string) :
  List.length
    (filter enlarged
       (SimpleMapComponent.markerLayer true previous (p :: props)
          selected color))
  = List.length
      (filter (fun q => match selected with
                        | Some s => namedLike s q
                        | None => false
                        end) (p :: props)).
Proof.
  unfold SimpleMapComponent.markerLayer.
  generalize (p :: props) as l. intros l.
  induction l as [| q l IH]; [reflexivity |].
  cbn [map filter]. rewrite enlarged_marker.
  destruct (match selected with
            | Some s => namedLike s q
            | None => false
            end); cbn [List.length]; now rewrite IH.
Qed.

(** *** The colours *)

(** The map page colours a cluster as the four-cluster copy of the analysis
    page does; it falls back to grey exactly for the numbers other than 1 to
    4; and the three-cluster analysis page gives each of its cluster ids a
    colour other than the map page's. *)
Theorem palettes :
  (forall c, getClusterColor c
             = ClusterAnalysis.colorOf ClusterAnalysis.Earlier.CLUSTER_COLORS
                 (VNum c))
  /\ (forall c, getClusterColor c = ClusterAnalysis.fallbackColor
                <-> existsb (strictEqNum c) ClusterAnalysis.Earlier.clusters
                    = false)
  /\ (forall c, In c ClusterAnalysis.Current.clusters ->
                ClusterAnalysis.colorOf
                  ClusterAnalysis.Current.CLUSTER_COLORS (VNum c)
                <> getClusterColor c).
Proof.
  split; [| split].
  - intros c.
    unfold getClusterColor, ClusterAnalysis.colorOf,
      ClusterAnalysis.Earlier.CLUSTER_COLORS. simpl.
    repeat match goal with
      | |- context [strictEqNum c ?k] => destruct (strictEqNum c k)
      end; reflexivity.
  - intros c.
    unfold getClusterColor, ClusterAnalysis.Earlier.clusters,
      ClusterAnalysis.fallbackColor. simpl.
    repeat match goal with
      | |- context [strictEqNum c ?k] => destruct (strictEqNum c k)
      end; simpl; split; intros H; try reflexivity; discriminate.
  - intros c [<- | [<- | [<- | []]]]; discriminate.
Qed.


End PageFacts.

(** ** More on ingestion *)

Module IngestMore.
Import Js MapPage FilterSpec IngestSpec NumberFacts NumberMore FilterFacts
  IngestFacts.

(** A row with all the columns becomes the record of its converted cells. *)
Lemma ingest_cells row :
  hasColumns row = true ->
  exists n u bd bt fl la ba lo lt pr cl,
    cell row "name" = Some n /\ cell row "url" = Some u
    /\ cell row "bedrooms" = Some bd /\ cell row "bathrooms" = Some bt
    /\ cell row "floors" = Some fl /\ cell row "land_area" = Some la
    /\ cell row "building_area" = Some ba /\ cell row "longitude" = Some lo
    /\ cell row "latitude" = Some lt /\ cell row "price" = Some pr
    /\ cell row "cluster" = Some cl
    /\ asPropertyData (converted row)
       = Some {| name := n; url := u; bedrooms := stored bd;
                 bathrooms := stored bt; floors := stored fl;
                 land_area := stored la; building_area := stored ba;
                 longitude := stored lo; latitude := stored lt;
                 price := stored pr; cluster := stored cl |}.
Proof.
  unfold hasColumns, columns. simpl. intros Hcols.
  repeat match type of Hcols with
    | context [cell row ?f] =>
        let v := fresh "v" in
        destruct (cell row f) as [v |] eqn:?; simpl in Hcols;
        [| discriminate]
    end.
  do 11 eexists. repeat (split; [reflexivity |]).
  unfold asPropertyData, converted. rewrite !get_parseWith.
  repeat match goal with
    | H : cell row _ = Some _ |- _ => rewrite H; clear H
    end.
  repeat match goal with
    | |- context [transform ?w ?f] =>
        first [ rewrite (transform_numeric w f eq_refl)
              | change (transform w f) with (VStr w) ]
    end.
  reflexivity.
Qed.

Lemma stored_equal v :
  isNaN (parseFloat v) = false -> strictEqNum (parseFloat v) (stored v) = true.
Proof.
  intros Hn. unfold stored, or_else, strictEqNum.
  destruct (truthy (parseFloat v)) eqn:E.
  - unfold isNaN, PrimFloat.is_nan in Hn. now apply negb_false_iff in Hn.
  - unfold truthy in E. apply negb_false_iff in E.
    unfold isNaN in Hn. rewrite Hn, orb_false_r in E. exact E.
Qed.

(** A row with all the columns is read back from its record: the name and
    the url are the texts of their cells, and each numeric field is a number
    equal to what [parseFloat] reads in its cell, whenever that is a
    number. *)
Theorem ingest_round_trip (row : Papa.rawRow) :
  hasColumns row = true ->
  exists p,
    asPropertyData (converted row) = Some p
    /\ cell row "name" = Some (name p)
    /\ cell row "url" = Some (url p)
    /\ (forall field v,
          includes numericColumns field = true ->
          cell row field = Some v ->
          isNaN (parseFloat v) = false ->
          exists x, numericField p field = Some x
                    /\ strictEqNum (parseFloat v) x = true).
Proof.
  intros Hcols.
  destruct (ingest_cells row Hcols)
    as (n & u & bd & bt & fl & la & ba & lo & lt & pr & cl & Hn & Hu & Hbd
        & Hbt & Hfl & Hla & Hba & Hlo & Hlt & Hpr & Hcl & Hp).
  eexists. split; [exact Hp |]. simpl.
  split; [exact Hn |]. split; [exact Hu |].
  intros field v Hf Hc Hv. exists (stored v).
  split; [| now apply stored_equal].
  unfold numericColumns, includes in Hf. simpl in Hf.
  unfold numericField.
  repeat match goal with
    | |- context [String.eqb field ?k] =>
        let E := fresh "E" in
        destruct (String.eqb field k) eqn:E;
        [ apply String.eqb_eq in E; subst field; simpl; congruence |]
    end.
  simpl in Hf. discriminate.
Qed.

Lemma ingest_round_trip_witness :
  hasColumns Fixtures.unclustered = true
  /\ exists p,
       asPropertyData (converted Fixtures.unclustered) = Some p
       /\ name p = "rumah asri"
       /\ strictEqNum 72.5%float (land_area p) = true.
Proof.
  split; [reflexivity |].
  destruct (ingest_round_trip Fixtures.unclustered eq_refl)
    as (p & Hp & Hn & _ & Hnum).
  exists p. split; [exact Hp |]. split; [now injection Hn |].
  destruct (Hnum "land_area" "72.5" eq_refl eq_refl eq_refl)
    as (x & Hx & Heq).
  injection Hx as <-. exact Heq.
Defined.

(** A row whose cluster cell is not a number, or is zero, is stored in
    cluster 0: its marker is grey, and it is listed under "All Clusters"
    only, since no entry of the cluster select stands for 0. *)
Theorem unclustered_row_is_grey (row : Papa.rawRow) (cl : string) :
  hasColumns row = true ->
  cell row "cluster" = Some cl ->
  truthy (parseFloat cl) = false ->
  exists p,
    asPropertyData (converted row) = Some p
    /\ cluster p = PrimFloat.zero
    /\ (forall selected,
          SimpleMapComponent.color
            (SimpleMapComponent.marker selected getClusterColor p)
          = "#6b7280")
    /\ (forall c lo hi b,
          In c ["1"; "2"; "3"; "4"] ->
          filteredProperties
            (applyFilters
               (stateOf [p] {| filter_cluster := c; minPrice := lo;
                               maxPrice := hi; minBedrooms := b |})) = []).
Proof.
  intros Hcols Hc Ht.
  destruct (ingest_cells row Hcols)
    as (n & u & bd & bt & fl & la & ba & lo & lt & pr & cl' & _ & _ & _
        & _ & _ & _ & _ & _ & _ & _ & Hcl & Hp).
  rewrite Hc in Hcl. injection Hcl as <-.
  assert (Hz : stored cl = PrimFloat.zero)
    by (unfold stored, or_else; now rewrite Ht).
  rewrite Hz in Hp.
  eexists. split; [exact Hp |].
  split; [reflexivity |]. split; [reflexivity |].
  intros c lo' hi b Hin.
  assert (Hno : String.eqb c "all"
                || strictEqNum PrimFloat.zero (parseInt c) = false)
    by (destruct Hin as [<- | [<- | [<- | [<- | []]]]]; reflexivity).
  rewrite applyFilters_filter.
  cbn [stateOf setFilters complete filters initialState properties filter].
  rewrite satisfies_unfold. cbn [filter_cluster cluster].
  now rewrite Hno.
Qed.

Lemma unclustered_row_is_grey_witness :
  hasColumns Fixtures.unclustered = true
  /\ cell Fixtures.unclustered "cluster" = Some "-"
  /\ truthy (parseFloat "-") = false
  /\ exists p,
       asPropertyData (converted Fixtures.unclustered) = Some p
       /\ cluster p = PrimFloat.zero
       /\ filteredProperties
            (applyFilters (stateOf [p] (Fixtures.withCluster "2"))) = [].
Proof.
  repeat (split; [reflexivity |]).
  destruct (unclustered_row_is_grey Fixtures.unclustered "-" eq_refl eq_refl
              eq_refl) as (p & Hp & Hz & _ & Hf).
  exists p. split; [exact Hp |]. split; [exact Hz |].
  exact (Hf "2" "" "" "" (or_intror (or_introl eq_refl))).
Defined.

End IngestMore.

(** ** The heading of the details card *)

Module TextFacts.
Import MapPage PageSpec.

Lemma isWordChar_toUpperCase c : isWordChar (toUpperCase c) = isWordChar c.
Proof. destruct c as [[] [] [] [] [] [] [] []]; reflexivity. Qed.

Lemma toUpperCase_twice c : toUpperCase (toUpperCase c) = toUpperCase c.
Proof. destruct c as [[] [] [] [] [] [] [] []]; reflexivity. Qed.

Lemma toUpperCase_not_lower c : isLowerCase (toUpperCase c) = false.
Proof. destruct c as [[] [] [] [] [] [] [] []]; reflexivity. Qed.

Lemma capitalizeFrom_length b str :
  String.length (capitalizeFrom b str) = String.length str.
Proof.
  revert b. induction str as [| c rest IH]; intros b; simpl;
    [reflexivity | now rewrite IH].
Qed.

Lemma capitalizeFrom_upperAll b str :
  upperAll (capitalizeFrom b str) = upperAll str.
Proof.
  revert b. induction str as [| c rest IH]; intros b; simpl; [reflexivity |].
  rewrite IH. f_equal.
  destruct (isWordChar c && negb b); [apply toUpperCase_twice | reflexivity].
Qed.

Lemma capitalizeFrom_twice b str :
  capitalizeFrom b (capitalizeFrom b str) = capitalizeFrom b str.
Proof.
  revert b. induction str as [| c rest IH]; intros b; simpl; [reflexivity |].
  destruct (isWordChar c && negb b) eqn:E.
  - rewrite isWordChar_toUpperCase, E, toUpperCase_twice. f_equal. apply IH.
  - rewrite E. f_equal. apply IH.
Qed.

Lemma wordStarts_capitalizeFrom b str :
  wordStarts b (capitalizeFrom b str)
  = map toUpperCase (wordStarts b str).
Proof.
  revert b. induction str as [| c rest IH]; intros b; simpl; [reflexivity |].
  destruct (isWordChar c && negb b) eqn:E.
  - rewrite isWordChar_toUpperCase, E. simpl. f_equal. apply IH.
  - rewrite E. apply IH.
Qed.

(** [capitalizeWords] changes nothing but the case of letters: the result
    has the length of the text and is equal to it when case is ignored. *)
Theorem capitalizeWords_same_text (str : string) :
  String.length (capitalizeWords str) = String.length str
  /\ upperAll (capitalizeWords str) = upperAll str.
Proof.
  split; [apply capitalizeFrom_length | apply capitalizeFrom_upperAll].
Qed.

(** In the result of [capitalizeWords] no word starts with a lower-case
    letter, and capitalizing it again changes nothing. *)
Theorem capitalizeWords_capitalized (str : string) :
  Forall (fun c => isLowerCase c = false)
    (wordStarts false (capitalizeWords str))
  /\ capitalizeWords (capitalizeWords str) = capitalizeWords str.
Proof.
  split; [| apply capitalizeFrom_twice].
  unfold capitalizeWords. rewrite wordStarts_capitalizeFrom.
  apply Forall_forall. intros c Hc.
  apply in_map_iff in Hc as (c0 & <- & _). apply toUpperCase_not_lower.
Qed.

Example capitalizeWords_samples :
  map capitalizeWords ["rumah mewah di bandung"; "a-b_c 9x  dijual:cepat"; ""]
  = ["Rumah Mewah Di Bandung"; "A-B_c 9x  Dijual:Cepat"; ""]
  /\ detailTitle None = "".
Proof. split; reflexivity. Qed.

End TextFacts.

(** ** More on the aggregates *)

Module AggregateMore.
Import Js ClusterAnalysis AggregateSpec NumberFacts NumberMore AggregateFacts.

Lemma hits_covered ids d :
  distinct ids = true ->
  list_sum (map (hit (get d "cluster")) ids)
  = if covered ids d then 1%nat else 0%nat.
Proof.
  intros Hd. unfold covered.
  destruct (existsb (strictEq (get d "cluster")) ids) eqn:E.
  - now apply one_hit.
  - now apply no_hit.
Qed.

(** The counts of distinct ids add up to the number of records whose cluster
    is one of the ids: a record of any other cluster is in no count. *)
Theorem counts_total_covered (ids : list float) (data : list object) :
  distinct ids = true ->
  list_sum (clusterCounts ids data) = List.length (filter (covered ids) data)
  /\ (list_sum (clusterCounts ids data) <= List.length data)%nat.
Proof.
  intros Hd.
  assert (H : list_sum (clusterCounts ids data)
              = List.length (filter (covered ids) data)).
  { unfold clusterCounts.
    induction data as [| d rest IH]; simpl.
    - clear Hd. induction ids as [| c ids IHids]; simpl; [reflexivity |].
      exact IHids.
    - rewrite (map_ext _ (fun c => hit (get d "cluster") c
                                   + List.length (group rest c))%nat).
      + rewrite list_sum_map_add, (hits_covered _ _ Hd), IH.
        now destruct (covered ids d).
      + intros c. unfold hit, group. simpl.
        now destruct (strictEq (get d "cluster") c). }
  split; [exact H |]. rewrite H. apply filter_length_le.
Qed.

Lemma counts_total_covered_witness :
  distinct Current.clusters = true
  /\ list_sum (clusterCounts Current.clusters Fixtures.withStranger) = 2%nat
  /\ List.length Fixtures.withStranger = 3%nat.
Proof.
  split; [reflexivity |]. split; [| reflexivity].
  exact (proj1 (counts_total_covered Current.clusters Fixtures.withStranger
                  eq_refl)).
Defined.

(** The counts do not depend on the order of the records. *)
Lemma group_length_perm data data' c :
  Permutation data data' ->
  List.length (group data c) = List.length (group data' c).
Proof.
  unfold group.
  induction 1 as [| d l l' _ IH | d d' l | l l' l'' _ IH1 _ IH2]; simpl.
  - reflexivity.
  - destruct (strictEq (get d "cluster") c); simpl; now rewrite IH.
  - destruct (strictEq (get d "cluster") c),
      (strictEq (get d' "cluster") c); reflexivity.
  - now rewrite IH1.
Qed.

Theorem counts_any_order (clusters : list float) (data data' : list object) :
  Permutation data data' ->
  clusterCounts clusters data = clusterCounts clusters data'.
Proof.
  intros H. unfold clusterCounts. apply map_ext.
  intros c. now apply group_length_perm.
Qed.

Lemma counts_any_order_witness :
  Permutation Fixtures.priced (rev Fixtures.priced)
  /\ clusterCounts Current.clusters Fixtures.priced
     = clusterCounts Current.clusters (rev Fixtures.priced).
Proof.
  assert (H : Permutation Fixtures.priced (rev Fixtures.priced))
    by apply Permutation_rev.
  split; [exact H |].
  exact (counts_any_order Current.clusters _ _ H).
Defined.

(** *** What a mean is taken over *)

Lemma validValues_app field l1 l2 c :
  validValues field (l1 ++ l2) c
  = validValues field l1 c ++ validValues field l2 c.
Proof.
  unfold validValues, group. now rewrite filter_app, map_app, filter_app.
Qed.

Lemma mean_validValues field data c :
  mean field data c
  = match validValues field data c with
    | [] => PrimFloat.zero
    | arr => (sum arr / lengthNumber arr)%float
    end.
Proof.
  unfold mean. fold (validValues field data c).
  now destruct (validValues field data c).
Qed.

(** A record of another cluster, or one whose value is not a number, leaves
    the mean as it is, wherever it stands among the records; the second kind
    is still counted in its cluster. *)
Theorem mean_ignores (field : string) (c : float) (l1 l2 : list object)
    (d : object) :
  strictEq (get d "cluster") c = false
  \/ isNaN (toNumber (get d field)) = true ->
  mean field (l1 ++ d :: l2) c = mean field (l1 ++ l2) c
  /\ (strictEq (get d "cluster") c = true ->
      List.length (group (l1 ++ d :: l2) c)
      = S (List.length (group (l1 ++ l2) c))).
Proof.
  intros H. split.
  - rewrite !mean_validValues, !validValues_app.
    replace (validValues field (d :: l2) c) with (validValues field l2 c);
      [reflexivity |].
    unfold validValues, group. simpl.
    destruct (strictEq (get d "cluster") c); [| reflexivity].
    destruct H as [H | H]; [discriminate |]. simpl. now rewrite H.
  - intros Hc. unfold group. rewrite !filter_app, !length_app. simpl.
    rewrite Hc. simpl. lia.
Qed.

Lemma mean_ignores_witness :
  (strictEq (get (Fixtures.row (VNum 1) (VStr "abc") (VNum 80)) "cluster")
     1%float = false
   \/ isNaN (toNumber (get (Fixtures.row (VNum 1) (VStr "abc") (VNum 80))
                        "price")) = true)
  /\ mean "price"
       (Fixtures.priced ++ [Fixtures.row (VNum 1) (VStr "abc") (VNum 80)])
       1%float
     = 200%float.
Proof.
  assert (H : strictEq
                (get (Fixtures.row (VNum 1) (VStr "abc") (VNum 80)) "cluster")
                1%float = false
              \/ isNaN
                   (toNumber
                      (get (Fixtures.row (VNum 1) (VStr "abc") (VNum 80))
                         "price")) = true)
    by (right; reflexivity).
  split; [exact H |].
  rewrite (proj1 (mean_ignores "price" 1%float Fixtures.priced [] _ H)).
  reflexivity.
Defined.

(** An empty cell is not ignored: [Number(null)] is 0, so a record of the
    group whose cell is [null] adds the value 0 to what the mean is taken
    over, and the mean is the total divided by a number that counts it. *)
Theorem null_counts_as_zero (field : string) (c : float)
    (l1 l2 : list object) (d : object) :
  strictEq (get d "cluster") c = true ->
  get d field = VNull ->
  validValues field (l1 ++ d :: l2) c
  = validValues field l1 c ++ PrimFloat.zero :: validValues field l2 c
  /\ mean field (l1 ++ d :: l2) c
     = (sum (validValues field l1 c ++ PrimFloat.zero
             :: validValues field l2 c)
        / ofZ (Z.of_nat (S (List.length (validValues field l1 c)
                            + List.length (validValues field l2 c)))))%float.
Proof.
  intros Hc Hnull.
  assert (H : validValues field (l1 ++ d :: l2) c
              = validValues field l1 c ++ PrimFloat.zero
                :: validValues field l2 c).
  { rewrite validValues_app. f_equal.
    unfold validValues, group. cbn [filter]. rewrite Hc.
    cbn [map]. rewrite Hnull. reflexivity. }
  split; [exact H |].
  rewrite mean_validValues, H.
  assert (L : List.length (validValues field l1 c ++ PrimFloat.zero
                           :: validValues field l2 c)
              = S (List.length (validValues field l1 c)
                   + List.length (validValues field l2 c)))
    by (rewrite length_app; simpl; lia).
  destruct (validValues field l1 c ++ PrimFloat.zero
            :: validValues field l2 c) as [| v arr]; [discriminate |].
  unfold lengthNumber. now rewrite L.
Qed.

Lemma null_counts_as_zero_witness :
  strictEq (get (Fixtures.row (VNum 1) VNull (VNum 80)) "cluster") 1%float
  = true
  /\ get (Fixtures.row (VNum 1) VNull (VNum 80)) "price" = VNull
  /\ mean "price"
       (Fixtures.priced ++ [Fixtures.row (VNum 1) VNull (VNum 80)]) 1%float
     = 150%float.
Proof.
  split; [reflexivity |]. split; [reflexivity |].
  rewrite (proj2 (null_counts_as_zero "price" 1%float Fixtures.priced []
                    (Fixtures.row (VNum 1) VNull (VNum 80))
                    eq_refl eq_refl)).
  reflexivity.
Defined.

(** The total of a mean is taken from the left, and binary64 addition is not
    associative: the mean can depend on the order of the records. *)
Example mean_depends_on_order :
  mean "price"
    [ Fixtures.row (VNum 1) (VNum 1e16) VNull;
      Fixtures.row (VNum 1) (VNum 1) VNull;
      Fixtures.row (VNum 1) (VNum (-1e16)) VNull ]%float 1%float
  = 0%float
  /\ mean "price"
       [ Fixtures.row (VNum 1) (VNum 1e16) VNull;
         Fixtures.row (VNum 1) (VNum (-1e16)) VNull;
         Fixtures.row (VNum 1) (VNum 1) VNull ]%float 1%float
     = (1 / 3)%float.
Proof. split; reflexivity. Qed.

End AggregateMore.

(** ** The map of the analysis page *)

Module AnalysisMapFacts.
Import Js ClusterAnalysis IngestSpec NumberFacts NumberMore IngestFacts.

Lemma testFloat_not_NaN v :
  Papa.testFloat v = true -> isNaN (parseFloat v) = false.
Proof.
  unfold Papa.testFloat. destruct (Papa.matchesFLOAT v); [| discriminate].
  intros H. apply andb_prop in H as [_ H].
  exact (proj1 (ltb_not_NaN _ _ H)).
Qed.

(** A cell becomes a number that is not NaN exactly when it passes the
    reader's numeric test. *)
Lemma parseDynamic_number dateValue v :
  match Papa.parseDynamic dateValue v with
  | VNum x => negb (isNaN x)
  | _ => false
  end = Papa.testFloat v.
Proof.
  unfold Papa.parseDynamic.
  destruct (String.eqb v "true" || String.eqb v "TRUE")%bool eqn:Et.
  - apply orb_prop in Et as [E | E]; apply String.eqb_eq in E; now subst.
  - destruct (String.eqb v "false" || String.eqb v "FALSE")%bool eqn:Ef.
    + apply orb_prop in Ef as [E | E]; apply String.eqb_eq in E; now subst.
    + destruct (Papa.testFloat v) eqn:E.
      * now rewrite (testFloat_not_NaN _ E).
      * now destruct (Papa.matchesISO_DATE v), (String.eqb v "").
Qed.

(** The analysis page puts a row on its map exactly when both of its
    coordinate cells are numeric text: a row with an empty or a non-numeric
    coordinate is left out (where the map page plots it at 0). *)
Theorem analysis_map_needs_coordinates (dateValue : string -> float)
    (row : Papa.rawRow) (lat lng : string) :
  cell row "latitude" = Some lat ->
  cell row "longitude" = Some lng ->
  validProperties (Papa.parseDynamicTyping dateValue [row])
  = if Papa.testFloat lat && Papa.testFloat lng
    then Papa.parseDynamicTyping dateValue [row]
    else [].
Proof.
  intros Hlat Hlng.
  unfold Papa.parseDynamicTyping, Papa.parseWith, validProperties.
  cbn [map filter]. unfold validCoordinates.
  rewrite !(get_parseWith (fun v _ => Papa.parseDynamic dateValue v)).
  rewrite Hlat, Hlng.
  rewrite <- (parseDynamic_number dateValue lat),
    <- (parseDynamic_number dateValue lng).
  destruct (Papa.parseDynamic dateValue lat) as [| | | x | |];
    try reflexivity.
  destruct (Papa.parseDynamic dateValue lng) as [| | | y | |];
    try (now rewrite andb_false_r).
  now destruct (negb (isNaN x) && negb (isNaN y)).
Qed.

Lemma analysis_map_needs_coordinates_witness :
  cell Fixtures.noLatitude "latitude" = Some ""
  /\ cell Fixtures.noLatitude "longitude" = Some "107.5"
  /\ validProperties
       (Papa.parseDynamicTyping (fun _ => PrimFloat.nan)
          [Fixtures.noLatitude]) = [].
Proof.
  split; [reflexivity |]. split; [reflexivity |].
  exact (analysis_map_needs_coordinates (fun _ => PrimFloat.nan)
           Fixtures.noLatitude "" "107.5" eq_refl eq_refl).
Defined.

End AnalysisMapFacts.
